(** * zdgps_report.py: extraction and merging of zDGPS reports

    A shallow embedding of the script [zdgps_report.py] and the
    properties of its segment selection ([get_prhrep_list]), header
    construction ([create_header], [get_dgps_systems]) and report merging
    ([create_final_report]).

    The script is Python 2: the standard output of a child process is a
    byte string, and [str.splitlines], [str.split] and [str.startswith]
    are applied to it directly.  Strings are modelled as [string] (a list
    of 8-bit characters). *)

From Stdlib Require Import Ascii String.
From stdpp Require Import base option list strings gmap.

(** ** Python primitives *)

Module Py.

(** The exceptions the modelled code can raise. *)
Inductive exn : Set :=
| IndexError   (* list index out of range *)
| IOError.     (* open() of a missing file *)

Inductive result (A : Type) : Type :=
| Ok (a : A)
| Raise (e : exn).
Global Arguments Ok {A} a.
Global Arguments Raise {A} e.

Global Instance result_ret : MRet result := λ A a, Ok a.
Global Instance result_bind : MBind result := λ A B f m,
  match m with
  | Ok a => f a
  | Raise e => Raise e
  end.

Definition LF : ascii := "010"%char.
Definition CR : ascii := "013"%char.

(** The one-character string ['\n']. *)
Definition nl : string := String LF "".

(** The double-quote character and the one-character string holding it. *)
Definition QUOTE : ascii := "034"%char.
Definition quote : string := String QUOTE "".

(** [s.split(sep)] for a one-character separator: never empty, the empty
    string gives [['']]. *)
Fixpoint split (sep : ascii) (s : string) : list string :=
  match s with
  | "" => [""]
  | String c s' =>
      if decide (c = sep) then "" :: split sep s'
      else match split sep s' with
           | [] => [String c ""]
           | f :: fs => String c f :: fs
           end
  end.

(** [s.splitlines()] on a byte string: lines end at ['\n'], ['\r'] or
    ['\r\n']; terminators are removed and a final terminator opens no
    further line. *)
Fixpoint splitlines (s : string) : list string :=
  match s with
  | "" => []
  | String c s' =>
      if decide (c = LF) then "" :: splitlines s'
      else if decide (c = CR) then
        match s' with
        | String c' s'' =>
            if decide (c' = LF) then "" :: splitlines s''
            else "" :: splitlines s'
        | "" => [""]
        end
      else match splitlines s' with
           | [] => [String c ""]
           | l :: ls => String c l :: ls
           end
  end.

(** Iterating over an open text file: lines end after each ['\n'],
    which is kept. *)
Fixpoint readlines (s : string) : list string :=
  match s with
  | "" => []
  | String c s' =>
      if decide (c = LF) then nl :: readlines s'
      else match readlines s' with
           | [] => [String c ""]
           | l :: ls => String c l :: ls
           end
  end.

(** [s.startswith(p)]. *)
Definition startswith (p s : string) : bool := String.prefix p s.

(** [l[i]] for a non-negative index. *)
Definition index {A} (l : list A) (i : nat) : result A :=
  match l !! i with
  | Some a => Ok a
  | None => Raise IndexError
  end.

(** [l[:-1]]. *)
Definition drop_last {A} (l : list A) : list A := removelast l.

(** What [f.write] leaves in a file after writing each string of the
    list in turn. *)
Definition join (l : list string) : string := foldr String.append "" l.

End Py.
Import Py.

(** ** The environment *)

(** External commands are run with [subprocess.Popen(cmd, shell=True)] and
    only their captured standard output is used: the environment maps a
    command line to that output.  Files read and written by the script
    itself ([open]) are kept in a finite map from names to contents.
    The command outputs are those of one call: a file the script writes
    is not shown by them, and a later call that lists or prints such a
    file is to be run in the environment [relisted] gives. *)
Record world : Type := World {
  popen : string → string;
  files : gmap string string;
}.

(** ** Script-level monad: the environment threaded, exceptions propagated *)

Definition io (A : Type) : Type := world → result A * world.

Global Instance io_ret : MRet io := λ A a w, (Ok a, w).
Global Instance io_bind : MBind io := λ A B f m w,
  match m w with
  | (Ok a, w') => f a w'
  | (Raise e, w') => (Raise e, w')
  end.

Definition lift {A} (r : result A) : io A := λ w, (r, w).

(** [subprocess.Popen(command, stdout=PIPE, shell=True).communicate()[0]] *)
Definition communicate (command : string) : io string :=
  λ w, (Ok (popen w command), w).

Definition read_file (input_file_name : string) : io (list string) :=
  λ w, match files w !! input_file_name with
       | Some content => (Ok (readlines content), w)
       | None => (Raise IOError, w)
       end.

(** Opening a file for writing ([open(name, 'w+')]) is taken to succeed;
    the file is created or truncated and then holds the strings written. *)
Definition write_file (output_file_name : string)
    (list_of_strings : list string) : io unit :=
  λ w, (Ok tt,
        World (popen w) (<[output_file_name := join list_of_strings]> (files w))).

(** ** Segment selection *)

(** The loop of [get_prhrep_list] over the catalogue lines.  (The selected
    lines are also printed; the printed lines are exactly the appended
    ones.) *)
Fixpoint select_lines (julian_day : string) (lines : list string)
    (database_list : list string) : result (list string) :=
  match lines with
  | [] => Ok database_list
  | line :: rest =>
      let line_array := split "_" line in
      day ← index line_array 2;
      if decide (day = julian_day)
      then select_lines julian_day rest (database_list ++ [line])
      else select_lines julian_day rest database_list
  end.

Definition get_prhrep_list (julian_day : string) : io (list string) :=
  let database_list := [] in
  let command := "orca_prhrep -list" in
  output ← communicate command;
  lift (select_lines julian_day (splitlines output) database_list).

(** ** Header construction *)

Definition banner : string :=
  "*******************************************" +:+ nl.

(** One iteration of the loop of [create_header]. *)
Definition header_step (header_lines : list string) (line : string)
    : result (list string) :=
  if decide (line ≠ "") then
    let parameters := split "," line in
    p0 ← index parameters 0;
    header_lines ←
      (if decide (p0 = "vessel") then
         p1 ← index parameters 1;
         Ok (header_lines ++ ["* Vessel: " +:+ p1 +:+ nl])
       else Ok header_lines);
    p0 ← index parameters 0;
    if decide (p0 = "project") then
      p1 ← index parameters 1;
      Ok (header_lines ++ ["* Project: " +:+ p1 +:+ nl])
    else Ok header_lines
  else Ok header_lines.

Fixpoint header_loop (config : list string) (header_lines : list string)
    : result (list string) :=
  match config with
  | [] => Ok header_lines
  | line :: rest =>
      header_lines ← header_step header_lines line;
      header_loop rest header_lines
  end.

Definition create_header (config_file system : string) : io unit :=
  let header_lines := [] in
  let header_lines := header_lines ++ [banner] in
  let header_lines := header_lines ++ ["* zDGPS Report for PGS office" +:+ nl] in
  config ← read_file config_file;
  header_lines ← lift (header_loop config header_lines);
  let header_lines := header_lines ++ ["* System: " +:+ system +:+ nl] in
  let header_lines := header_lines ++ [banner] in
  write_file (system +:+ ".hdr") header_lines.

(** The loop of [get_dgps_systems]. *)
Fixpoint systems_loop (config_file : string) (config : list string)
    (dgps_systems : list string) : io (list string) :=
  match config with
  | [] => mret dgps_systems
  | line :: rest =>
      if decide (line ≠ "") then
        let parameters := split "," line in
        p0 ← lift (index parameters 0);
        if decide (p0 = "system") then
          p1 ← lift (index parameters 1);
          let dgps_systems := dgps_systems ++ [p1] in
          p1 ← lift (index parameters 1);
          create_header config_file p1;;
          systems_loop config_file rest dgps_systems
        else systems_loop config_file rest dgps_systems
      else systems_loop config_file rest dgps_systems
  end.

Definition get_dgps_systems (config_file : string) : io (list string) :=
  let dgps_systems := [] in
  config ← read_file config_file;
  systems_loop config_file config dgps_systems.

(** ** Report merging *)

(** The three accumulators of [create_final_report]. *)
Record merge_state : Type := MergeState {
  header_lines : list string;
  data_lines : list string;
  source_line : string;
}.

(** The body of the inner loop: one row of a raw report. *)
Definition classify_row (st : merge_state) (row : string)
    : result merge_state :=
  if startswith "*" row then
    Ok (MergeState (header_lines st ++ [row +:+ nl]) (data_lines st)
          (source_line st))
  else if startswith "D" row then
    Ok (MergeState (header_lines st ++ [row +:+ nl]) (data_lines st)
          (source_line st))
  else if startswith "S" row then
    let source_row_array := split "," row in
    f ← index source_row_array 1;
    let source_line := source_line st +:+ "," +:+ f in
    Ok (MergeState (header_lines st ++ [source_line +:+ nl]) (data_lines st)
          source_line)
  else if startswith quote row then
    Ok (MergeState (header_lines st ++ [row +:+ nl]) (data_lines st)
          (source_line st))
  else
    Ok (MergeState (header_lines st) (data_lines st ++ [row +:+ nl])
          (source_line st)).

Fixpoint classify_rows (st : merge_state) (cat_lines : list string)
    : result merge_state :=
  match cat_lines with
  | [] => Ok st
  | row :: rest =>
      st ← classify_row st row;
      classify_rows st rest
  end.

(** The body of the outer loop: one listed file.  It starts with
    [header_lines[:] = []]. *)
Definition merge_file (st : merge_state) (line : string) : io merge_state :=
  let st := MergeState [] (data_lines st) (source_line st) in
  let cat_command := "cat " +:+ line in
  cat_output ← communicate cat_command;
  let cat_lines := splitlines cat_output in
  let cat_lines := drop_last cat_lines in
  lift (classify_rows st cat_lines).

Fixpoint merge_files (st : merge_state) (lines : list string)
    : io merge_state :=
  match lines with
  | [] => mret st
  | line :: rest =>
      st ← merge_file st line;
      merge_files st rest
  end.

(** The first part of [create_final_report], up to the end of the loops:
    the accumulators after every listed file has been processed. *)
Definition merge_reports (system julian_day : string) : io merge_state :=
  let st := MergeState [] [] "Source file(s)" in
  let ls_command := "ls *" +:+ system +:+ "*_" +:+ julian_day in
  output ← communicate ls_command;
  merge_files st (splitlines output).

Definition create_final_report (system year julian_day : string) : io unit :=
  st ← merge_reports system julian_day;
  let return_lines := header_lines st ++ data_lines st in
  write_file (system +:+ "_zDGPS." +:+ year +:+ "_" +:+ julian_day)
    return_lines.

(** ** Clock *)

(** The characters [str.strip] removes from a byte string: space, tab,
    newline, vertical tab, form feed and carriage return. *)
Definition isspace (c : ascii) : bool :=
  match c with
  | " " | "009" | "010" | "011" | "012" | "013" => true
  | _ => false
  end%char.

(** [s.lstrip()], [s.rstrip()] and [s.strip()]. *)
Fixpoint lstrip (s : string) : string :=
  match s with
  | "" => ""
  | String c r => if isspace c then lstrip r else s
  end.

Fixpoint rstrip (s : string) : string :=
  match s with
  | "" => ""
  | String c r =>
      match rstrip r with
      | "" => if isspace c then "" else String c ""
      | String c' r' => String c (String c' r')
      end
  end.

Definition strip (s : string) : string := rstrip (lstrip s).

Definition get_julian_day : io string :=
  let command := "date +%j" in
  output ← communicate command;
  mret (strip output).

Definition get_previous_julian_day : io string :=
  let command := "date --date='-1 day' +%j" in
  output ← communicate command;
  mret (strip output).

Definition get_year : io string :=
  let command := "date --date='-1 day' +%Y" in
  output ← communicate command;
  mret (strip output).

(** ** Names used in the statements *)

(** The command lines the script builds. *)
Definition list_command : string := "orca_prhrep -list".
Definition ls_command (system julian_day : string) : string :=
  "ls *" +:+ system +:+ "*_" +:+ julian_day.
Definition cat_command (line : string) : string := "cat " +:+ line.

(** The raw report files found for a system and day, in listing order. *)
Definition listed_files (w : world) (system julian_day : string)
    : list string :=
  splitlines (popen w (ls_command system julian_day)).

(** The rows of a raw report that reach classification: all but the last. *)
Definition classified_rows (w : world) (line : string) : list string :=
  drop_last (splitlines (popen w (cat_command line))).

Definition final_report_name (system year julian_day : string) : string :=
  system +:+ "_zDGPS." +:+ year +:+ "_" +:+ julian_day.

(** Rows that take the third branch of the classification. *)
Definition is_source_row (row : string) : Prop := startswith "S" row = true.

(** Rows that take the first, second or fourth branch. *)
Definition is_header_row (row : string) : Prop :=
  startswith "*" row = true ∨ startswith "D" row = true
  ∨ startswith quote row = true.

(** Lines of a final report that carry the source provenance. *)
Definition is_source_line (l : string) : Prop :=
  startswith "Source file(s)" l = true.

Global Instance is_source_row_dec row : Decision (is_source_row row).
Proof. unfold is_source_row. apply _. Defined.
Global Instance is_header_row_dec row : Decision (is_header_row row).
Proof. unfold is_header_row. apply _. Defined.
Global Instance is_source_line_dec l : Decision (is_source_line l).
Proof. unfold is_source_line. apply _. Defined.

(** The environment after [write_file] has written the lines to the file. *)
Definition written (w : world) (name : string) (lines : list string) : world :=
  World (popen w) (<[name := join lines]> (files w)).

(** [c in s] for a character. *)
Fixpoint contains (c : ascii) (s : string) : bool :=
  match s with
  | "" => false
  | String b r => bool_decide (b = c) || contains c r
  end.

(** An environment given by a table of command lines and their outputs;
    any other command prints nothing. *)
Fixpoint scripted (outputs : list (string * string)) (command : string)
    : string :=
  match outputs with
  | [] => ""
  | (c, out) :: rest =>
      if decide (c = command) then out else scripted rest command
  end.

(** [lines] joined into the text of a file, each line newline-terminated. *)
Definition text (lines : list string) : string :=
  join ((λ l, l +:+ nl) <$> lines).

(** *** Segment selection *)

(** The field compared with the day: the third one. *)
Definition day_field (line : string) : option string := split "_" line !! 2.

(** A catalogue in the shape of the specification's example, and one
    whose identifiers carry the day in the third field. *)
Definition catalogue_sys : world :=
  World (scripted [(list_command,
                    text ["SYS_24hr_2022_006_000000";
                          "SYS_24hr_2022_007_000000"])]) ∅.
Definition catalogue_24hr : world :=
  World (scripted [(list_command,
                    text ["24hr_2022_006_000000";
                          "24hr_2022_007_000000"])]) ∅.

(** *** Report merging *)

(** Rows that take the last branch. *)
Definition is_data_row (row : string) : Prop :=
  ¬ is_header_row row ∧ ¬ is_source_row row.

Definition source_rows (rows : list string) : list string :=
  filter is_source_row rows.

(** The second comma-separated field of each source row. *)
Definition source_fields (rows : list string) : list string :=
  omap (λ row, split "," row !! 1) (source_rows rows).

(** Every source row has a second field. *)
Definition well_formed_rows (rows : list string) : Prop :=
  Forall (λ row, is_source_row row → is_Some (split "," row !! 1)) rows.

(** The running source line after the given fields were added. *)
Definition extend (sl : string) (fields : list string) : string :=
  foldl (λ sl f, sl +:+ "," +:+ f) sl fields.

(** The header lines written while the fields are added, one per field. *)
Fixpoint running (sl : string) (fields : list string) : list string :=
  match fields with
  | [] => []
  | f :: fs =>
      ((sl +:+ "," +:+ f) +:+ nl) :: running (sl +:+ "," +:+ f) fs
  end.

Definition newline (l : string) : string := l +:+ nl.

Definition initial_state : merge_state := MergeState [] [] "Source file(s)".

(** The accumulators as a file starts: the header is emptied, the data
    and the running source line are kept. *)
Definition next_file (st : merge_state) : merge_state :=
  MergeState [] (data_lines st) (source_line st).

(** What the outer loop computes; the loop only reads the environment. *)
Fixpoint fold_files (w : world) (st : merge_state) (names : list string)
    : result merge_state :=
  match names with
  | [] => Ok st
  | name :: rest =>
      st ← classify_rows (next_file st) (classified_rows w name);
      fold_files w st rest
  end.

(** The source fields and the data lines of a sequence of files. *)
Definition all_fields (w : world) (names : list string) : list string :=
  names ≫= λ name, source_fields (classified_rows w name).
Definition all_data (w : world) (names : list string) : list string :=
  names ≫= λ name, newline <$> filter is_data_row (classified_rows w name).

Global Instance well_formed_rows_dec rows : Decision (well_formed_rows rows).
Proof. unfold well_formed_rows. apply _. Defined.

(** The fields after the fixed words of the source line. *)
Definition comma_list (fields : list string) : string :=
  join ((λ f, "," +:+ f) <$> fields).

(** A file with exactly one source row, whose second field is [f]. *)
Definition one_source_row (w : world) (name f : string) : Prop :=
  ∃ row, source_rows (classified_rows w name) = [row]
         ∧ split "," row !! 1 = Some f.

(** *** Header construction *)

(** The value of a record with the given tag: the second field of a line
    whose first field is the tag. *)
Definition record_value (tag line : string) : option string :=
  match split "," line with
  | t :: v :: _ => if decide (t = tag) then Some v else None
  | _ => None
  end.

Definition records (tag : string) (config : list string) : list string :=
  omap (record_value tag) config.

Definition vessel_line (v : string) : string := "* Vessel: " +:+ v +:+ nl.
Definition project_line (v : string) : string := "* Project: " +:+ v +:+ nl.
Definition system_line (s : string) : string := "* System: " +:+ s +:+ nl.
Definition title_line : string := "* zDGPS Report for PGS office" +:+ nl.

Definition is_vessel_line (l : string) : Prop :=
  startswith "* Vessel: " l = true.
Definition is_project_line (l : string) : Prop :=
  startswith "* Project: " l = true.

(** The header lines one configuration line gives rise to. *)
Definition attribute_line (line : string) : list string :=
  match record_value "vessel" line with
  | Some v => [vessel_line v]
  | None =>
      match record_value "project" line with
      | Some v => [project_line v]
      | None => []
      end
  end.

Definition attribute_lines (config : list string) : list string :=
  config ≫= attribute_line.

(** The header of a system, from the whole configuration. *)
Definition header_of (config : list string) (system : string)
    : list string :=
  (([banner; title_line] ++ attribute_lines config) ++ [system_line system])
  ++ [banner].

(** A line that is a bare tag has no value to take: indexing it raises
    [IndexError].  Only the last line of a file that does not end in a
    newline can be one. *)
Definition well_formed_record (line : string) : Prop :=
  line ∉ ["vessel"; "project"; "system"].

(** *** Sample environments *)

Definition raw_name : string := "V1G1_24hr_2022_006_000000_RAW.2022_006".
Definition raw_name' : string := "V1G1_24hr_2022_006_120000_RAW.2022_006".

(** One raw report, as in the specification's example. *)
Definition raw_single : world :=
  World (scripted
           [(ls_command "V1G1" "006", text [raw_name]);
            (cat_command raw_name,
             text ["*hdr1"; "Dinfo"; "S,seg1"; "row1"; "row2"; "GARBAGE"])])
    ∅.

(** Two raw reports, each with one source row. *)
Definition raw_two : world :=
  World (scripted
           [(ls_command "V1G1" "006", text [raw_name; raw_name']);
            (cat_command raw_name, text ["S,seg1"; "GARBAGE"]);
            (cat_command raw_name', text ["S,seg2"; "GARBAGE"])])
    ∅.

(** Two raw reports with different header rows. *)
Definition raw_two_headers : world :=
  World (scripted
           [(ls_command "V1G1" "006", text [raw_name; raw_name']);
            (cat_command raw_name, text ["*one"; "S,seg1"; "1.0"; "GARBAGE"]);
            (cat_command raw_name', text ["*two"; "S,seg2"; "2.0"; "GARBAGE"])])
    ∅.

(** One raw report with two source rows. *)
Definition raw_two_sources : world :=
  World (scripted
           [(ls_command "V1G1" "006", text [raw_name]);
            (cat_command raw_name, text ["S,seg1"; "S,seg2"; "GARBAGE"])])
    ∅.

(** One raw report with a source row that has no comma. *)
Definition raw_no_comma : world :=
  World (scripted
           [(ls_command "V1G1" "006", text [raw_name]);
            (cat_command raw_name, text ["*hdr1"; "Source"; "GARBAGE"])])
    ∅.

(** No raw report at all. *)
Definition raw_none : world := World (scripted []) ∅.

(** The environment a later call finds once the script has written the
    file [name] into a directory that the listing command [ls] matches:
    the listing prints the name too (after the names it printed before,
    which is its place when it sorts last), and [cat] prints the content
    written. *)
Definition relisted (w : world) (ls name : string) : world :=
  World (λ command,
           if decide (command = ls) then popen w ls +:+ name +:+ nl
           else if decide (command = cat_command name)
           then default "" (files w !! name)
           else popen w command)
    (files w).

(** The directory of [raw_single] after a first merge, as a second merge
    finds it: the final report [V1G1_zDGPS.2022_006] matches the pattern
    [*V1G1*_006] and is listed after the raw report. *)
Definition raw_single_again : world :=
  relisted (snd (create_final_report "V1G1" "2022" "006" raw_single))
    (ls_command "V1G1" "006") (final_report_name "V1G1" "2022" "006").

(** A configuration whose last line is a bare tag. *)
Definition bare_tag_config : world :=
  World (scripted [])
    {[ "zdgps_report.config" := text ["system,V1G1,"] +:+ "vessel" ]}.

(** A configuration file that has the name of the header file of its first
    system. *)
Definition overwritten_config : world :=
  World (scripted [])
    {[ "V1G1.hdr" := text ["vessel,Ramform,"; "system,V1G1,"; "system,V2G2,"] ]}.

(** A configuration with a [system] record before and after the
    [vessel] and [project] records. *)
Definition sample_config : world :=
  World (scripted [])
    {[ "zdgps_report.config" :=
         text ["system,V1G1,"; "vessel,Ramform,"; ""; "project,P1,";
               "system,V2G2,"] ]}.

(** *** Further vocabulary *)

(** The lines the header part of a final report can hold. *)
Definition is_header_line (l : string) : Prop :=
  is_header_row l ∨ is_source_line l.

(** A string free of the characters [str.strip] removes. *)
Fixpoint no_space (s : string) : bool :=
  match s with
  | "" => true
  | String c r => negb (isspace c) && no_space r
  end.

(** The first and the last character of a string. *)
Definition first_char (s : string) : option ascii :=
  match s with
  | "" => None
  | String c _ => Some c
  end.

Fixpoint last_char (s : string) : option ascii :=
  match s with
  | "" => None
  | String c "" => Some c
  | String _ r => last_char r
  end.

(** A line as a text file holds it: no newline but the one that ends it. *)
Definition is_line (l : string) : Prop :=
  ∃ body, l = body +:+ nl ∧ contains LF body = false.

(** The accumulators hold whole lines only. *)
Definition lines_only (st : merge_state) : Prop :=
  Forall is_line (header_lines st)
  ∧ Forall is_line (data_lines st)
  ∧ contains LF (source_line st) = false.

(** A string with no whitespace at either end. *)
Definition stripped (s : string) : Prop :=
  (∀ c, first_char s = Some c → isspace c = false)
  ∧ (∀ c, last_char s = Some c → isspace c = false).

(** Two raw reports that differ in their last rows only. *)
Definition raw_other_last : world :=
  World (scripted
           [(ls_command "V1G1" "006", text [raw_name]);
            (cat_command raw_name,
             text ["*hdr1"; "Dinfo"; "S,seg1"; "row1"; "row2"; "OTHER"])])
    ∅.

(** Two raw reports, the second one holding a single line. *)
Definition raw_short_last : world :=
  World (scripted
           [(ls_command "V1G1" "006", text [raw_name; raw_name']);
            (cat_command raw_name, text ["*one"; "S,seg1"; "1.0"; "GARBAGE"]);
            (cat_command raw_name', text ["GARBAGE"])])
    ∅.

(** The clock printing a day and a year. *)
Definition clock : world :=
  World (scripted
           [("date +%j", text ["007"]);
            ("date --date='-1 day' +%j", text ["006"]);
            ("date --date='-1 day' +%Y", text ["2022"])])
    ∅.

(** ** Tactics *)

(** Unfolds the sequencing of the script-level monad, leaving the
    computations of the exception monad in place. *)
Ltac run_io := cbv [mbind mret io_bind io_ret lift communicate]; cbv beta.

(** Applies the induction hypothesis of [classify_rows_spec] to the
    accumulators the goal continues with. *)
Ltac use_IH IH :=
  lazymatch goal with
  | |- ∃ _, classify_rows ?s _ = _ ∧ _ =>
      let st' := fresh "st'" in
      destruct (IH s) as (st' & Hrun & Hs & Hd & Hh & Hl)
  end.

(** ** Evaluation on small inputs *)

Example split_ex1 : split "," "a,b," = ["a"; "b"; ""].
Proof. reflexivity. Qed.
Example split_ex2 : split "," "" = [""].
Proof. reflexivity. Qed.
Example splitlines_ex1 :
  splitlines ("a" +:+ nl +:+ nl +:+ "b" +:+ String CR nl +:+ "c" +:+ nl)
  = ["a"; ""; "b"; "c"].
Proof. reflexivity. Qed.
Example readlines_ex1 :
  readlines ("a" +:+ nl +:+ nl +:+ "b") = ["a" +:+ nl; nl; "b"].
Proof. reflexivity. Qed.

(** ** Facts about the Python primitives *)

Section primitives.

Lemma string_app_cons (c : ascii) (s t : string) :
  String c s +:+ t = String c (s +:+ t).
Proof. reflexivity. Qed.

Lemma string_app_nil_r (s : string) : s +:+ "" = s.
Proof.
  induction s as [|c s IH]; [done|]. by rewrite string_app_cons, IH.
Qed.

Lemma string_app_assoc (s t u : string) : (s +:+ t) +:+ u = s +:+ t +:+ u.
Proof.
  induction s as [|c s IH]; [done|]. by rewrite !string_app_cons, IH.
Qed.

Lemma string_length_app (s t : string) :
  String.length (s +:+ t) = String.length s + String.length t.
Proof.
  induction s as [|c s IH]; [done|]. rewrite string_app_cons. cbn.
  by rewrite IH.
Qed.

(** Appending the same suffix to different strings gives different
    strings: header files of different systems have different names. *)
Lemma string_app_inj_r (s1 s2 t : string) : s1 +:+ t = s2 +:+ t → s1 = s2.
Proof.
  revert s2. induction s1 as [|c s1 IH]; intros [|c' s2] Heq; [done|..].
  - apply (f_equal String.length) in Heq.
    rewrite !string_length_app in Heq. cbn in Heq. lia.
  - apply (f_equal String.length) in Heq.
    rewrite !string_length_app in Heq. cbn in Heq. lia.
  - rewrite !string_app_cons in Heq. injection Heq as -> Heq.
    f_equal. by apply IH.
Qed.

Lemma startswith_app (p s t : string) :
  startswith p s = true → startswith p (s +:+ t) = true.
Proof.
  unfold startswith. revert s.
  induction p as [|a p IH]; intros [|b s]; try done.
  - by destruct t.
  - rewrite string_app_cons. cbn.
    destruct (ascii_dec a b); [apply IH | done].
Qed.

Lemma startswith_first (a : ascii) (p s : string) :
  startswith (String a p) s = true → ∃ r, s = String a r.
Proof.
  unfold startswith. destruct s as [|b s]; cbn; [done|].
  destruct (ascii_dec a b) as [->|]; [eauto | done].
Qed.

Lemma startswith_char (a : ascii) (r : string) :
  startswith (String a "") (String a r) = true.
Proof.
  unfold startswith. cbn. destruct (ascii_dec a a); [|done].
  by destruct r.
Qed.

(** [s.split(sep)] always has a first field. *)
Lemma split_cons (sep : ascii) (s : string) :
  ∃ f fs, split sep s = f :: fs.
Proof.
  destruct s as [|c s]; cbn; [eauto|].
  destruct (decide (c = sep)); [eauto|].
  destruct (split sep s); eauto.
Qed.

Lemma index_Ok {A} (l : list A) (i : nat) (a : A) :
  index l i = Ok a ↔ l !! i = Some a.
Proof. unfold index. destruct (l !! i); split; congruence. Qed.

Lemma index_Raise {A} (l : list A) (i : nat) (e : exn) :
  index l i = Raise e ↔ length l ≤ i ∧ e = IndexError.
Proof.
  unfold index. destruct (l !! i) eqn:Hl.
  - apply lookup_lt_Some in Hl. split; [done | lia].
  - apply lookup_ge_None in Hl. split; [intros [= <-]; by split|].
    by intros [_ ->].
Qed.

(** A string without the separator is its own single field. *)
Lemma split_no_sep (sep : ascii) (s : string) :
  contains sep s = false → split sep s = [s].
Proof.
  induction s as [|c s IH]; [done|]. cbn [contains split].
  intros [Hc Hs]%orb_false_elim. apply bool_decide_eq_false in Hc.
  rewrite decide_False by done. by rewrite IH.
Qed.

End primitives.

(** ** Segment selection: [get_prhrep_list] *)

Section selection.

Implicit Types (w : world) (julian_day line : string) (lines : list string).

Lemma select_lines_Ok julian_day lines database_list :
  Forall (λ line, is_Some (day_field line)) lines →
  select_lines julian_day lines database_list
  = Ok (database_list
          ++ filter (λ line, day_field line = Some julian_day) lines).
Proof.
  intros Hall. revert database_list.
  induction Hall as [|line lines [day Hday] _ IH]; intros database_list.
  - by rewrite filter_nil, app_nil_r.
  - rewrite filter_cons. cbn [select_lines]. unfold index.
    fold (day_field line). rewrite Hday. cbn [mbind result_bind].
    destruct (decide (day = julian_day)) as [->|Hne].
    + rewrite IH, decide_True by done. by rewrite <- app_assoc.
    + rewrite IH, decide_False by congruence. done.
Qed.

Lemma select_lines_Raise julian_day lines database_list line :
  line ∈ lines → length (split "_" line) < 3 →
  select_lines julian_day lines database_list = Raise IndexError.
Proof.
  intros Hin Hshort. revert database_list.
  induction lines as [|l lines IH]; intros database_list.
  - by apply not_elem_of_nil in Hin.
  - cbn. destruct (index (split "_" l) 2) as [day|e] eqn:Hidx; cbn.
    + apply elem_of_cons in Hin as [->|Hin].
      * apply index_Ok, lookup_lt_Some in Hidx. lia.
      * destruct (decide (day = julian_day)); by apply IH.
    + by apply index_Raise in Hidx as [_ ->].
Qed.

Lemma get_prhrep_list_filter w julian_day :
  Forall (λ line, is_Some (day_field line))
    (splitlines (popen w list_command)) →
  get_prhrep_list julian_day w
  = (Ok (filter (λ line, day_field line = Some julian_day)
           (splitlines (popen w list_command))), w).
Proof.
  intros Hall. unfold get_prhrep_list. run_io.
  fold list_command. by rewrite select_lines_Ok.
Qed.

Example get_prhrep_list_24hr :
  get_prhrep_list "006" catalogue_24hr
  = (Ok ["24hr_2022_006_000000"], catalogue_24hr).
Proof. reflexivity. Qed.

Example get_prhrep_list_sys_year :
  get_prhrep_list "2022" catalogue_sys
  = (Ok ["SYS_24hr_2022_006_000000"; "SYS_24hr_2022_007_000000"],
     catalogue_sys).
Proof. reflexivity. Qed.

(** C3 (as the code has it): for the catalogue
    ["SYS_24hr_2022_006_000000"; "SYS_24hr_2022_007_000000"] and the day
    "006", [get_prhrep_list] returns the empty list: the field it
    compares with the day is the third underscore-separated one, which
    is "2022" in both identifiers. *)
Theorem get_prhrep_list_sys_catalogue w :
  splitlines (popen w list_command)
  = ["SYS_24hr_2022_006_000000"; "SYS_24hr_2022_007_000000"] →
  get_prhrep_list "006" w = (Ok [], w).
Proof.
  intros Hcat. rewrite get_prhrep_list_filter; rewrite Hcat; [done|].
  repeat constructor; by eexists.
Qed.

Lemma get_prhrep_list_sys_catalogue_witness :
  splitlines (popen catalogue_sys list_command)
  = ["SYS_24hr_2022_006_000000"; "SYS_24hr_2022_007_000000"]
  ∧ get_prhrep_list "006" catalogue_sys = (Ok [], catalogue_sys).
Proof.
  split; [reflexivity|].
  apply (get_prhrep_list_sys_catalogue catalogue_sys). reflexivity.
Defined.

(** C3 as stated fails: on that catalogue the result for day "006" is
    not the list holding the first identifier. *)
Lemma get_prhrep_list_sys_catalogue_counterexample :
  splitlines (popen catalogue_sys list_command)
  = ["SYS_24hr_2022_006_000000"; "SYS_24hr_2022_007_000000"]
  ∧ fst (get_prhrep_list "006" catalogue_sys)
    ≠ Ok ["SYS_24hr_2022_006_000000"].
Proof. split; [reflexivity|]. vm_compute. discriminate. Qed.

(** C9: a catalogue line that splits on [_] into fewer than three fields
    makes [get_prhrep_list] raise [IndexError]; nothing is returned. *)
Theorem get_prhrep_list_malformed w julian_day line :
  line ∈ splitlines (popen w list_command) →
  length (split "_" line) < 3 →
  get_prhrep_list julian_day w = (Raise IndexError, w).
Proof.
  intros Hin Hshort. unfold get_prhrep_list. run_io. fold list_command.
  by rewrite (select_lines_Raise _ _ _ line).
Qed.

Lemma get_prhrep_list_malformed_witness :
  let w := World (scripted [(list_command,
                             text ["24hr_2022_006_000000"; "24hr_2022"])]) ∅
  in get_prhrep_list "006" w = (Raise IndexError, w).
Proof.
  intros w. apply (get_prhrep_list_malformed w "006" "24hr_2022").
  - apply list_elem_of_further, list_elem_of_here.
  - vm_compute. lia.
Defined.

End selection.

(** ** Report merging: [create_final_report] *)

Section merging.

Implicit Types (w : world) (st : merge_state) (row line : string).
Implicit Types (rows names fields : list string).

Lemma startswith_1 (a : ascii) (s : string) :
  startswith (String a "") s
  = match s with String b _ => bool_decide (a = b) | "" => false end.
Proof.
  destruct s as [|b r]; [done|]. unfold startswith. cbn.
  destruct (ascii_dec a b).
  - rewrite bool_decide_eq_true_2 by done. by destruct r.
  - by rewrite bool_decide_eq_false_2.
Qed.

(** *** One row *)

Lemma classify_row_header st row :
  is_header_row row →
  classify_row st row
  = Ok (MergeState (header_lines st ++ [row +:+ nl]) (data_lines st)
          (source_line st)).
Proof.
  unfold is_header_row, classify_row. unfold quote. rewrite !startswith_1.
  destruct row as [|c r]; [by intros [?|[?|?]]|].
  intros [H|[H|H]]; apply bool_decide_eq_true in H as <-; done.
Qed.

Lemma classify_row_source st row :
  is_source_row row →
  classify_row st row
  = (f ← index (split "," row) 1;
     Ok (MergeState
           (header_lines st ++ [(source_line st +:+ "," +:+ f) +:+ nl])
           (data_lines st) (source_line st +:+ "," +:+ f))).
Proof.
  unfold is_source_row, classify_row. unfold quote. rewrite !startswith_1.
  destruct row as [|c r]; [done|].
  intros H; apply bool_decide_eq_true in H as <-; done.
Qed.

Lemma classify_row_data st row :
  is_data_row row →
  classify_row st row
  = Ok (MergeState (header_lines st) (data_lines st ++ [row +:+ nl])
          (source_line st)).
Proof.
  unfold is_data_row, is_header_row, is_source_row, classify_row.
  intros [Hh Hs].
  destruct (startswith "*" row); [naive_solver|].
  destruct (startswith "D" row); [naive_solver|].
  destruct (startswith "S" row); [naive_solver|].
  destruct (startswith quote row); [naive_solver|]. done.
Qed.

Lemma row_kind row :
  is_header_row row ∨ is_source_row row ∨ is_data_row row.
Proof.
  destruct (decide (is_header_row row)); [by left|].
  destruct (decide (is_source_row row)); [by right; left|].
  by right; right.
Qed.

Lemma header_not_source row : is_header_row row → ¬ is_source_row row.
Proof.
  unfold is_header_row, is_source_row. unfold quote. rewrite !startswith_1.
  destruct row as [|c r]; [by intros [?|[?|?]]|].
  intros [H|[H|H]]; apply bool_decide_eq_true in H as <-; done.
Qed.

(** The only exception a row can raise. *)
Lemma classify_row_Raise st row e :
  classify_row st row = Raise e → e = IndexError.
Proof.
  destruct (row_kind row) as [H|[H|H]].
  - by rewrite classify_row_header.
  - rewrite classify_row_source by done.
    destruct (index (split "," row) 1) eqn:Hidx; [done|].
    apply index_Raise in Hidx as [_ ->]. by intros [= <-].
  - by rewrite classify_row_data.
Qed.

(** *** The lines a row leaves in the output *)

Lemma is_header_row_newline row :
  is_header_row (row +:+ nl) ↔ is_header_row row.
Proof.
  unfold is_header_row. destruct row as [|c r]; [by cbv|].
  unfold quote. by rewrite string_app_cons, !startswith_1.
Qed.

Lemma is_source_row_newline row :
  is_source_row (row +:+ nl) ↔ is_source_row row.
Proof.
  unfold is_source_row. destruct row as [|c r]; [by cbv|].
  unfold quote. by rewrite string_app_cons, !startswith_1.
Qed.

Lemma is_source_line_row l : is_source_line l → is_source_row l.
Proof.
  unfold is_source_line, is_source_row. intros [r ->]%startswith_first.
  apply startswith_char.
Qed.

Lemma is_source_line_app sl t : is_source_line sl → is_source_line (sl +:+ t).
Proof. apply startswith_app. Qed.

Lemma is_source_line_extend sl fields :
  is_source_line sl → is_source_line (extend sl fields).
Proof.
  revert sl. induction fields as [|f fs IH]; intros sl Hsl; [done|].
  cbn. apply IH. by apply is_source_line_app.
Qed.

Lemma filter_source_running sl fields :
  is_source_line sl →
  filter is_source_line (running sl fields) = running sl fields.
Proof.
  revert sl. induction fields as [|f fs IH]; intros sl Hsl; [done|].
  cbn [running].
  rewrite filter_cons_True by by do 2 apply is_source_line_app.
  f_equal. apply IH. by apply is_source_line_app.
Qed.

Lemma running_app sl fs1 fs2 :
  running sl (fs1 ++ fs2) = running sl fs1 ++ running (extend sl fs1) fs2.
Proof.
  revert sl. induction fs1 as [|f fs1 IH]; intros sl; [done|].
  cbn. by rewrite IH.
Qed.

Lemma extend_app sl fs1 fs2 :
  extend sl (fs1 ++ fs2) = extend (extend sl fs1) fs2.
Proof. apply foldl_app. Qed.

Lemma source_fields_cons_source row rows f :
  is_source_row row → split "," row !! 1 = Some f →
  source_fields (row :: rows) = f :: source_fields rows.
Proof.
  intros Hs Hf. unfold source_fields, source_rows.
  rewrite filter_cons_True by done. cbn [omap list_omap]. by rewrite Hf.
Qed.

Lemma source_fields_cons_other row rows :
  ¬ is_source_row row → source_fields (row :: rows) = source_fields rows.
Proof.
  intros Hs. unfold source_fields, source_rows.
  by rewrite filter_cons_False.
Qed.

Lemma not_source_line_newline row :
  ¬ is_source_row row → ¬ is_source_line (row +:+ nl).
Proof.
  intros Hs Hl. by apply Hs, is_source_row_newline, is_source_line_row.
Qed.

Lemma not_header_source_line sl t :
  is_source_line sl → ¬ is_header_row (sl +:+ t).
Proof.
  intros Hsl Hh. apply (is_source_line_app _ t), is_source_line_row in Hsl.
  by apply header_not_source in Hh.
Qed.

(** *** The rows of one file *)

Lemma classify_rows_spec st rows :
  well_formed_rows rows → is_source_line (source_line st) →
  ∃ st', classify_rows st rows = Ok st'
    ∧ source_line st' = extend (source_line st) (source_fields rows)
    ∧ data_lines st'
      = data_lines st ++ (newline <$> filter is_data_row rows)
    ∧ filter is_header_row (header_lines st')
      = filter is_header_row (header_lines st)
        ++ (newline <$> filter is_header_row rows)
    ∧ filter is_source_line (header_lines st')
      = filter is_source_line (header_lines st)
        ++ running (source_line st) (source_fields rows).
Proof.
  intros Hwf. revert st.
  induction Hwf as [|row rows Hrow _ IH]; intros st Hsl.
  { exists st. by rewrite !app_nil_r. }
  cbn [classify_rows].
  destruct (row_kind row) as [Hk|[Hk|Hk]].
  - rewrite classify_row_header by done. cbn [mbind result_bind].
    pose proof (header_not_source _ Hk) as Hns.
    use_IH IH; [exact Hsl|].
    exists st'. split; [exact Hrun|]. rewrite Hs, Hd, Hh, Hl.
    cbn [source_line data_lines header_lines].
    rewrite source_fields_cons_other by done.
    rewrite (filter_cons_False is_data_row) by (by intros [? _]).
    rewrite (filter_cons_True is_header_row) by done.
    rewrite !filter_app, (filter_cons_True is_header_row),
      (filter_cons_False is_source_line), !filter_nil, app_nil_r;
      [|by apply not_source_line_newline|by apply is_header_row_newline].
    rewrite fmap_cons, <- app_assoc. done.
  - destruct (Hrow Hk) as [f Hf].
    rewrite classify_row_source by done.
    unfold index. rewrite Hf. cbn [mbind result_bind].
    use_IH IH; [by apply is_source_line_app|].
    exists st'. split; [exact Hrun|]. rewrite Hs, Hd, Hh, Hl.
    cbn [source_line data_lines header_lines].
    rewrite (source_fields_cons_source _ _ f) by done.
    rewrite (filter_cons_False is_data_row) by (by intros [_ ?]).
    rewrite (filter_cons_False is_header_row)
      by (intros Hx; by apply header_not_source in Hx).
    rewrite !filter_app, (filter_cons_False is_header_row),
      (filter_cons_True is_source_line), !filter_nil, app_nil_r;
      [|by do 2 apply is_source_line_app
       |by apply not_header_source_line, is_source_line_app].
    cbn [extend foldl running]. rewrite <- app_assoc. done.
  - destruct Hk as [Hnh Hns].
    rewrite classify_row_data by done. cbn [mbind result_bind].
    use_IH IH; [exact Hsl|].
    exists st'. split; [exact Hrun|]. rewrite Hs, Hd, Hh, Hl.
    cbn [source_line data_lines header_lines].
    rewrite source_fields_cons_other by done.
    rewrite (filter_cons_True is_data_row) by done.
    rewrite (filter_cons_False is_header_row) by done.
    rewrite fmap_cons, <- app_assoc. done.
Qed.

Lemma classify_rows_Raise_only st rows e :
  classify_rows st rows = Raise e → e = IndexError.
Proof.
  revert st. induction rows as [|r rows IH]; intros st; [done|].
  cbn [classify_rows].
  destruct (classify_row st r) as [st1|e1] eqn:Hr; cbn [mbind result_bind].
  - apply IH.
  - apply classify_row_Raise in Hr as ->. by intros [= <-].
Qed.

Lemma classify_rows_Raise st rows row :
  row ∈ rows → is_source_row row → length (split "," row) < 2 →
  classify_rows st rows = Raise IndexError.
Proof.
  intros Hin Hs Hshort. revert st.
  induction rows as [|r rows IH]; intros st.
  { by apply not_elem_of_nil in Hin. }
  cbn [classify_rows].
  destruct (classify_row st r) as [st1|e] eqn:Hr; cbn [mbind result_bind].
  - apply elem_of_cons in Hin as [<-|Hin]; [|by apply IH].
    rewrite classify_row_source in Hr by done.
    destruct (index (split "," row) 1) eqn:Hidx; [|done].
    apply index_Ok, lookup_lt_Some in Hidx. lia.
  - by apply classify_row_Raise in Hr as ->.
Qed.

(** *** The listed files *)

Lemma merge_files_run st names w :
  merge_files st names w = (fold_files w st names, w).
Proof.
  revert st. induction names as [|name rest IH]; intros st; [done|].
  cbn [merge_files fold_files]. unfold merge_file. run_io.
  fold (cat_command name). fold (classified_rows w name).
  fold (next_file st).
  destruct (classify_rows (next_file st) (classified_rows w name));
    [apply IH | done].
Qed.

Lemma merge_reports_run system julian_day w :
  merge_reports system julian_day w
  = (fold_files w initial_state (listed_files w system julian_day), w).
Proof.
  unfold merge_reports. run_io. by rewrite merge_files_run.
Qed.

Lemma create_final_report_run system year julian_day w :
  create_final_report system year julian_day w
  = match fold_files w initial_state (listed_files w system julian_day) with
    | Ok st =>
        (Ok tt,
         written w (final_report_name system year julian_day)
           (header_lines st ++ data_lines st))
    | Raise e => (Raise e, w)
    end.
Proof.
  unfold create_final_report. cbv [mbind io_bind].
  rewrite merge_reports_run.
  by destruct (fold_files w initial_state _).
Qed.

Lemma fold_files_snoc w st init last :
  fold_files w st (init ++ [last])
  = (st1 ← fold_files w st init;
     classify_rows (next_file st1) (classified_rows w last)).
Proof.
  revert st. induction init as [|name init IH]; intros st.
  - cbn. by destruct (classify_rows _ _).
  - cbn [app fold_files].
    destruct (classify_rows (next_file st) (classified_rows w name));
      cbn [mbind result_bind]; [apply IH | done].
Qed.

Lemma fold_files_spec w st names :
  Forall (λ name, well_formed_rows (classified_rows w name)) names →
  is_source_line (source_line st) →
  ∃ st', fold_files w st names = Ok st'
    ∧ source_line st' = extend (source_line st) (all_fields w names)
    ∧ data_lines st' = data_lines st ++ all_data w names.
Proof.
  intros Hwf. revert st.
  induction Hwf as [|name names Hname _ IH]; intros st Hsl.
  { exists st. by rewrite app_nil_r. }
  destruct (classify_rows_spec (next_file st) _ Hname Hsl)
    as (st1 & Hrun & Hs & Hd & _ & _).
  destruct (IH st1) as (st' & Hrun' & Hs' & Hd').
  { rewrite Hs. by apply is_source_line_extend. }
  exists st'. cbn [fold_files]. rewrite Hrun. cbn [mbind result_bind].
  split; [done|]. rewrite Hs', Hd', Hs, Hd. unfold all_fields, all_data.
  rewrite !bind_cons, extend_app, <- app_assoc. done.
Qed.

Lemma fold_files_Raise_only w st names e :
  fold_files w st names = Raise e → e = IndexError.
Proof.
  revert st. induction names as [|name names IH]; intros st; [done|].
  cbn [fold_files].
  destruct (classify_rows _ _) as [st1|e1] eqn:Hr; cbn [mbind result_bind].
  - apply IH.
  - apply classify_rows_Raise_only in Hr as ->. by intros [= <-].
Qed.

Lemma fold_files_Raise w st names name row :
  name ∈ names → row ∈ classified_rows w name →
  is_source_row row → length (split "," row) < 2 →
  fold_files w st names = Raise IndexError.
Proof.
  intros Hin Hrow Hs Hshort. revert st.
  induction names as [|n names IH]; intros st.
  { by apply not_elem_of_nil in Hin. }
  cbn [fold_files].
  destruct (classify_rows _ _) as [st1|e1] eqn:Hr; cbn [mbind result_bind].
  - apply elem_of_cons in Hin as [<-|Hin]; [|by apply IH].
    by rewrite (classify_rows_Raise _ _ row) in Hr.
  - by apply classify_rows_Raise_only in Hr as ->.
Qed.

Lemma filter_none {A} (P : A → Prop) `{!∀ x, Decision (P x)} (l : list A) :
  Forall (λ x, ¬ P x) l → filter P l = [].
Proof.
  induction 1 as [|x l Hx _ IH]; [done|]. by rewrite filter_cons_False.
Qed.

Lemma all_data_not_source w names :
  filter is_source_line (all_data w names) = [].
Proof.
  apply filter_none, Forall_forall. intros l Hl.
  unfold all_data in Hl. apply list_elem_of_bind in Hl as (name & Hl & _).
  apply list_elem_of_fmap in Hl as (row & -> & Hrow).
  apply list_elem_of_filter in Hrow as [[_ Hns] _].
  by apply not_source_line_newline.
Qed.

(** The accumulators after a non-empty sequence of well-formed files:
    the header comes from the last file alone, the source line and the
    data from all of them. *)
Lemma fold_files_last w init last :
  Forall (λ name, well_formed_rows (classified_rows w name))
    (init ++ [last]) →
  ∃ st, fold_files w initial_state (init ++ [last]) = Ok st
    ∧ filter is_header_row (header_lines st)
      = newline <$> filter is_header_row (classified_rows w last)
    ∧ filter is_source_line (header_lines st ++ data_lines st)
      = running (extend "Source file(s)" (all_fields w init))
          (source_fields (classified_rows w last))
    ∧ data_lines st = all_data w (init ++ [last])
    ∧ source_line st
      = extend "Source file(s)" (all_fields w (init ++ [last])).
Proof.
  intros [Hinit Hlast]%Forall_app. rewrite Forall_singleton in Hlast.
  destruct (fold_files_spec w initial_state init Hinit)
    as (st1 & Hrun1 & Hs1 & Hd1); [done|].
  cbn [initial_state source_line data_lines] in Hs1, Hd1.
  destruct (classify_rows_spec (next_file st1) _ Hlast)
    as (st & Hrun & Hs & Hd & Hh & Hl).
  { cbn. rewrite Hs1. by apply is_source_line_extend. }
  cbn [next_file source_line data_lines header_lines] in Hs, Hd, Hh, Hl.
  exists st. rewrite fold_files_snoc, Hrun1. cbn [mbind result_bind].
  split; [done|]. split; [by rewrite Hh, filter_nil|].
  assert (data_lines st = all_data w (init ++ [last])) as Hdata.
  { rewrite Hd, Hd1. unfold all_data.
    by rewrite bind_app, bind_cons, app_nil_r. }
  split; [|split; [done|]].
  - rewrite filter_app, Hl, Hdata, all_data_not_source, filter_nil, app_nil_r.
    by rewrite Hs1.
  - rewrite Hs, Hs1. unfold all_fields.
    by rewrite bind_app, bind_cons, app_nil_r, extend_app.
Qed.

Example merge_two_headers :
  fst (merge_reports "V1G1" "006" raw_two_headers)
  = Ok (MergeState [newline "*two"; newline "Source file(s),seg1,seg2"]
          [newline "1.0"; newline "2.0"] "Source file(s),seg1,seg2").
Proof. reflexivity. Qed.

Example merge_two_sources :
  fst (merge_reports "V1G1" "006" raw_two_sources)
  = Ok (MergeState [newline "Source file(s),seg1";
                    newline "Source file(s),seg1,seg2"]
          [] "Source file(s),seg1,seg2").
Proof. reflexivity. Qed.

(** *** The claims about merging *)

(** C4: a single raw file with the rows "*hdr1", "Dinfo", "S,seg1",
    "row1", "row2", "GARBAGE" gives the header "*hdr1", "Dinfo",
    "Source file(s),seg1" and the data "row1", "row2", each
    newline-terminated; the last row is dropped. *)
Theorem create_final_report_single w system year julian_day name :
  listed_files w system julian_day = [name] →
  splitlines (popen w (cat_command name))
  = ["*hdr1"; "Dinfo"; "S,seg1"; "row1"; "row2"; "GARBAGE"] →
  merge_reports system julian_day w
  = (Ok (MergeState
           ["*hdr1" +:+ nl; "Dinfo" +:+ nl; "Source file(s),seg1" +:+ nl]
           ["row1" +:+ nl; "row2" +:+ nl]
           "Source file(s),seg1"), w)
  ∧ create_final_report system year julian_day w
    = (Ok tt,
       written w (final_report_name system year julian_day)
         (["*hdr1" +:+ nl; "Dinfo" +:+ nl; "Source file(s),seg1" +:+ nl]
          ++ ["row1" +:+ nl; "row2" +:+ nl])).
Proof.
  intros Hls Hcat.
  rewrite create_final_report_run, merge_reports_run, Hls.
  cbn [fold_files]. unfold classified_rows. rewrite Hcat. done.
Qed.

Lemma create_final_report_single_witness :
  merge_reports "V1G1" "006" raw_single
  = (Ok (MergeState
           ["*hdr1" +:+ nl; "Dinfo" +:+ nl; "Source file(s),seg1" +:+ nl]
           ["row1" +:+ nl; "row2" +:+ nl]
           "Source file(s),seg1"), raw_single)
  ∧ create_final_report "V1G1" "2022" "006" raw_single
    = (Ok tt,
       written raw_single (final_report_name "V1G1" "2022" "006")
         (["*hdr1" +:+ nl; "Dinfo" +:+ nl; "Source file(s),seg1" +:+ nl]
          ++ ["row1" +:+ nl; "row2" +:+ nl])).
Proof.
  apply (create_final_report_single raw_single "V1G1" "2022" "006" raw_name);
    reflexivity.
Defined.

(** C5: two raw files, the first with the single row "S,seg1" and the
    second with the single row "S,seg2" before their trailing rows, give
    the one source line "Source file(s),seg1,seg2" and nothing else. *)
Theorem create_final_report_two_sources
    w system year julian_day name1 name2 last1 last2 :
  listed_files w system julian_day = [name1; name2] →
  splitlines (popen w (cat_command name1)) = ["S,seg1"; last1] →
  splitlines (popen w (cat_command name2)) = ["S,seg2"; last2] →
  create_final_report system year julian_day w
  = (Ok tt,
     written w (final_report_name system year julian_day)
       ["Source file(s),seg1,seg2" +:+ nl]).
Proof.
  intros Hls Hcat1 Hcat2. rewrite create_final_report_run, Hls.
  cbn [fold_files]. unfold classified_rows. rewrite Hcat1, Hcat2. done.
Qed.

Lemma create_final_report_two_sources_witness :
  create_final_report "V1G1" "2022" "006" raw_two
  = (Ok tt,
     written raw_two (final_report_name "V1G1" "2022" "006")
       ["Source file(s),seg1,seg2" +:+ nl]).
Proof.
  apply (create_final_report_two_sources raw_two "V1G1" "2022" "006"
           raw_name raw_name' "GARBAGE" "GARBAGE"); reflexivity.
Defined.

(** C8: when no raw file is listed, the final report is still written,
    with empty content, and no exception is raised. *)
Theorem create_final_report_no_files w system year julian_day :
  listed_files w system julian_day = [] →
  create_final_report system year julian_day w
  = (Ok tt, written w (final_report_name system year julian_day) [])
  ∧ files (snd (create_final_report system year julian_day w))
      !! final_report_name system year julian_day = Some "".
Proof.
  intros Hls. rewrite create_final_report_run, Hls. cbn [fold_files].
  split; [done|]. cbn. apply lookup_insert_eq.
Qed.

Lemma create_final_report_no_files_witness :
  create_final_report "V1G1" "2022" "006" raw_none
  = (Ok tt, written raw_none (final_report_name "V1G1" "2022" "006") [])
  ∧ files (snd (create_final_report "V1G1" "2022" "006" raw_none))
      !! final_report_name "V1G1" "2022" "006" = Some "".
Proof.
  apply (create_final_report_no_files raw_none "V1G1" "2022" "006").
  reflexivity.
Defined.

(** C7: merging twice in the same directory does not give the same final
    report.  The listing pattern also matches the final report the first
    merge wrote, so the second merge takes it for a raw report: its source
    line is added once more and its rows, but the last, are written
    again. *)
Theorem create_final_report_second_run :
  listed_files raw_single "V1G1" "006" = [raw_name]
  ∧ listed_files raw_single_again "V1G1" "006"
    = [raw_name; final_report_name "V1G1" "2022" "006"]
  ∧ classified_rows raw_single_again raw_name
    = classified_rows raw_single raw_name
  ∧ files (snd (create_final_report "V1G1" "2022" "006" raw_single))
      !! final_report_name "V1G1" "2022" "006"
    = Some (text ["*hdr1"; "Dinfo"; "Source file(s),seg1"; "row1"; "row2"])
  ∧ files (snd (create_final_report "V1G1" "2022" "006" raw_single_again))
      !! final_report_name "V1G1" "2022" "006"
    = Some (text ["*hdr1"; "Dinfo"; "Source file(s),seg1,seg1";
                  "row1"; "row2"; "row1"]).
Proof. repeat split; vm_compute; reflexivity. Qed.

(** C10: a classified row that begins with [S] and has no comma makes
    [create_final_report] raise [IndexError]; the environment is left as
    it was, no final report is written. *)
Theorem create_final_report_source_without_comma
    w system year julian_day name row :
  name ∈ listed_files w system julian_day →
  row ∈ classified_rows w name →
  startswith "S" row = true →
  contains "," row = false →
  create_final_report system year julian_day w = (Raise IndexError, w).
Proof.
  intros Hname Hrow Hs Hcomma. rewrite create_final_report_run.
  rewrite (fold_files_Raise _ _ _ name row); [done..|].
  rewrite split_no_sep by done. cbn. lia.
Qed.

Lemma create_final_report_source_without_comma_witness :
  create_final_report "V1G1" "2022" "006" raw_no_comma
  = (Raise IndexError, raw_no_comma).
Proof.
  apply (create_final_report_source_without_comma raw_no_comma
           "V1G1" "2022" "006" raw_name "Source").
  - apply list_elem_of_here.
  - apply list_elem_of_further, list_elem_of_here.
  - reflexivity.
  - reflexivity.
Defined.

(** The converse: when every classified source row has a second field,
    the final report is written. *)
Lemma create_final_report_total w system year julian_day :
  Forall (λ name, well_formed_rows (classified_rows w name))
    (listed_files w system julian_day) →
  ∃ lines,
    create_final_report system year julian_day w
    = (Ok tt, written w (final_report_name system year julian_day) lines).
Proof.
  intros Hwf. rewrite create_final_report_run.
  destruct (fold_files_spec w initial_state _ Hwf) as (st & -> & _); [done|].
  by eexists.
Qed.

(** C1 (as the code has it): the header of the final report holds the
    header rows (first character [*], [D] or a double quote) of the file
    processed last, each followed by a newline, in their order in that
    file; the header rows of the files processed before it are
    discarded, because the header accumulator is emptied as each file
    starts. *)
Theorem final_header_from_last_file w system year julian_day init last :
  listed_files w system julian_day = init ++ [last] →
  Forall (λ name, well_formed_rows (classified_rows w name))
    (init ++ [last]) →
  ∃ st, merge_reports system julian_day w = (Ok st, w)
    ∧ filter is_header_row (header_lines st)
      = newline <$> filter is_header_row (classified_rows w last)
    ∧ create_final_report system year julian_day w
      = (Ok tt,
         written w (final_report_name system year julian_day)
           (header_lines st ++ data_lines st)).
Proof.
  intros Hls Hwf.
  destruct (fold_files_last w init last Hwf) as (st & Hrun & Hh & _).
  exists st. rewrite merge_reports_run, create_final_report_run, Hls, Hrun.
  done.
Qed.

Lemma final_header_from_last_file_witness :
  ∃ st, merge_reports "V1G1" "006" raw_two_headers = (Ok st, raw_two_headers)
    ∧ filter is_header_row (header_lines st)
      = newline <$> filter is_header_row
                      (classified_rows raw_two_headers raw_name')
    ∧ create_final_report "V1G1" "2022" "006" raw_two_headers
      = (Ok tt,
         written raw_two_headers (final_report_name "V1G1" "2022" "006")
           (header_lines st ++ data_lines st)).
Proof.
  apply (final_header_from_last_file raw_two_headers "V1G1" "2022" "006"
           [raw_name] raw_name').
  - reflexivity.
  - apply (bool_decide_unpack _). vm_compute. exact I.
Defined.

(** C1 as stated fails: with two raw files, the header row "*one" of the
    first is classified and is not in the final report. *)
Lemma final_header_counterexample :
  let st := MergeState [newline "*two"; newline "Source file(s),seg1,seg2"]
              [newline "1.0"; newline "2.0"] "Source file(s),seg1,seg2" in
  merge_reports "V1G1" "006" raw_two_headers = (Ok st, raw_two_headers)
  ∧ raw_name ∈ listed_files raw_two_headers "V1G1" "006"
  ∧ "*one" ∈ classified_rows raw_two_headers raw_name
  ∧ is_header_row "*one"
  ∧ newline "*one" ∉ header_lines st ++ data_lines st.
Proof.
  intros st. split; [reflexivity|]. split; [apply list_elem_of_here|].
  split; [apply list_elem_of_here|]. split; [by left|].
  apply (bool_decide_unpack _). vm_compute. exact I.
Qed.

Lemma extend_comma_list sl fields :
  extend sl fields = sl +:+ comma_list fields.
Proof.
  revert sl. induction fields as [|f fs IH]; intros sl.
  - cbn. by rewrite string_app_nil_r.
  - cbn [extend foldl]. fold (extend (sl +:+ "," +:+ f) fs). rewrite IH.
    unfold comma_list. rewrite fmap_cons. cbn [join foldr].
    by rewrite !string_app_assoc.
Qed.

Lemma one_source_row_fields w name f :
  one_source_row w name f →
  well_formed_rows (classified_rows w name)
  ∧ source_fields (classified_rows w name) = [f].
Proof.
  intros (row & Hrows & Hf). split.
  - apply Forall_forall. intros r Hr Hs.
    assert (r ∈ source_rows (classified_rows w name)) as Hin
      by by apply list_elem_of_filter.
    rewrite Hrows in Hin. apply list_elem_of_singleton in Hin as ->. eauto.
  - unfold source_fields. rewrite Hrows. cbn. by rewrite Hf.
Qed.

Lemma one_source_row_all w names fields :
  Forall2 (one_source_row w) names fields →
  Forall (λ name, well_formed_rows (classified_rows w name)) names
  ∧ all_fields w names = fields.
Proof.
  induction 1 as [|name f names fields Hone _ [IHwf IHf]]; [done|].
  apply one_source_row_fields in Hone as [Hwf Hf]. split.
  - by constructor.
  - unfold all_fields in *. by rewrite bind_cons, Hf, IHf.
Qed.

(** C2 (as the code has it): when at least one raw file is listed and
    every listed file has exactly one classified source row, with a
    second comma-separated field, the final report has exactly one
    source line, and it lists those fields once each, comma-separated,
    in processing order. *)
Theorem single_source_line w system year julian_day fields :
  listed_files w system julian_day ≠ [] →
  Forall2 (one_source_row w) (listed_files w system julian_day) fields →
  ∃ st, merge_reports system julian_day w = (Ok st, w)
    ∧ filter is_source_line (header_lines st ++ data_lines st)
      = [("Source file(s)" +:+ comma_list fields) +:+ nl]
    ∧ create_final_report system year julian_day w
      = (Ok tt,
         written w (final_report_name system year julian_day)
           (header_lines st ++ data_lines st)).
Proof.
  intros Hne Hone.
  destruct (exists_last Hne) as (init & last & Hls). rewrite Hls in Hone.
  destruct (one_source_row_all _ _ _ Hone) as [Hwf Hfields].
  destruct (fold_files_last w init last Hwf) as (st & Hrun & _ & Hl & _).
  exists st. rewrite merge_reports_run, create_final_report_run, Hls, Hrun.
  split; [done|]. split; [|done]. rewrite Hl.
  apply Forall2_app_inv_l in Hone
    as (finit & flast & Hinit & Hlast & ->).
  apply Forall2_cons_inv_l in Hlast as (f & ? & Hlast & ->%Forall2_nil_inv_l & ->).
  apply one_source_row_fields in Hlast as [_ ->].
  apply one_source_row_all in Hinit as [_ ->].
  cbn [running]. by rewrite <- extend_comma_list, extend_app.
Qed.

Lemma single_source_line_witness :
  ∃ st, merge_reports "V1G1" "006" raw_two = (Ok st, raw_two)
    ∧ filter is_source_line (header_lines st ++ data_lines st)
      = [("Source file(s)" +:+ comma_list ["seg1"; "seg2"]) +:+ nl]
    ∧ create_final_report "V1G1" "2022" "006" raw_two
      = (Ok tt,
         written raw_two (final_report_name "V1G1" "2022" "006")
           (header_lines st ++ data_lines st)).
Proof.
  apply (single_source_line raw_two "V1G1" "2022" "006" ["seg1"; "seg2"]).
  - discriminate.
  - change (listed_files raw_two "V1G1" "006") with [raw_name; raw_name'].
    constructor; [by exists "S,seg1"|].
    constructor; [by exists "S,seg2"|]. constructor.
Defined.

(** C2 as stated fails: a raw file with two classified source rows
    leaves two source lines in the final report. *)
Lemma single_source_line_counterexample :
  let st := MergeState [newline "Source file(s),seg1";
                        newline "Source file(s),seg1,seg2"]
              [] "Source file(s),seg1,seg2" in
  merge_reports "V1G1" "006" raw_two_sources = (Ok st, raw_two_sources)
  ∧ filter is_source_line (header_lines st ++ data_lines st)
    = [newline "Source file(s),seg1"; newline "Source file(s),seg1,seg2"]
  ∧ length (filter is_source_line (header_lines st ++ data_lines st)) ≠ 1.
Proof.
  intros st. split; [reflexivity|]. split; [reflexivity|].
  vm_compute. discriminate.
Qed.

End merging.

(** ** Header construction: [create_header] and [get_dgps_systems] *)

Section headers.

Implicit Types (w : world) (line tag system : string).
Implicit Types (config : list string).

Lemma split_singleton (sep : ascii) (s t : string) :
  split sep s = [t] → t = s.
Proof.
  revert t. induction s as [|c s IH]; intros t; cbn [split].
  - by intros [= <-].
  - destruct (decide (c = sep)).
    + destruct (split_cons sep s) as (f & fs & ->). done.
    + destruct (split_cons sep s) as (f & fs & Hs).
      rewrite Hs in IH |- *. destruct fs; intros [= <-].
      by rewrite (IH f).
Qed.

Lemma header_step_spec acc line :
  well_formed_record line →
  header_step acc line = Ok (acc ++ attribute_line line).
Proof.
  unfold well_formed_record, header_step, attribute_line, record_value.
  intros Hwf. destruct (decide (line ≠ "")) as [_|Hempty].
  - destruct (split "," line) as [|t [|v fs]] eqn:Hsplit.
    + destruct (split_cons "," line) as (? & ? & ?). congruence.
    + apply split_singleton in Hsplit as ->. cbn.
      destruct (decide (line = "vessel")) as [->|].
      { exfalso. apply Hwf. set_solver. }
      destruct (decide (line = "project")) as [->|].
      { exfalso. apply Hwf. set_solver. }
      cbn. by rewrite app_nil_r.
    + cbn. destruct (decide (t = "vessel")) as [->|]; [done|].
      cbn. destruct (decide (t = "project")); [done|].
      by rewrite app_nil_r.
  - apply dec_stable in Hempty as ->. cbn. by rewrite app_nil_r.
Qed.

Lemma header_loop_spec acc config :
  Forall well_formed_record config →
  header_loop config acc = Ok (acc ++ attribute_lines config).
Proof.
  intros Hwf. revert acc.
  induction Hwf as [|line config Hline _ IH]; intros acc.
  - by rewrite app_nil_r.
  - cbn [header_loop]. rewrite header_step_spec by done.
    cbn [mbind result_bind]. rewrite IH. unfold attribute_lines.
    by rewrite bind_cons, app_assoc.
Qed.

Lemma create_header_run w config_file system content :
  files w !! config_file = Some content →
  Forall well_formed_record (readlines content) →
  create_header config_file system w
  = (Ok tt,
     written w (system +:+ ".hdr") (header_of (readlines content) system)).
Proof.
  intros Hfile Hwf. unfold create_header, read_file. run_io.
  rewrite Hfile, header_loop_spec by done. done.
Qed.

(** *** The header lines of a kind *)

Lemma filter_vessel_attribute_lines config :
  filter is_vessel_line (attribute_lines config)
  = vessel_line <$> records "vessel" config.
Proof.
  unfold attribute_lines, records.
  induction config as [|line config IH]; [done|].
  rewrite bind_cons, filter_app, IH. cbn [omap list_omap].
  unfold attribute_line.
  destruct (record_value "vessel" line) as [v|].
  - rewrite filter_cons_True, filter_nil; [done|].
    by apply startswith_app.
  - destruct (record_value "project" line) as [v|]; [|done].
    by rewrite filter_cons_False, filter_nil.
Qed.

Lemma filter_project_attribute_lines config :
  filter is_project_line (attribute_lines config)
  = project_line <$> records "project" config.
Proof.
  unfold attribute_lines, records.
  induction config as [|line config IH]; [done|].
  rewrite bind_cons, filter_app, IH. cbn [omap list_omap].
  unfold attribute_line, record_value.
  destruct (split "," line) as [|t [|v fs]]; [done..|].
  destruct (decide (t = "vessel")) as [->|].
  - rewrite decide_False by done.
    by rewrite filter_cons_False, filter_nil.
  - destruct (decide (t = "project")); [|done].
    rewrite filter_cons_True, filter_nil; [done|].
    by apply startswith_app.
Qed.

Lemma filter_vessel_header config system :
  filter is_vessel_line (header_of config system)
  = vessel_line <$> records "vessel" config.
Proof.
  unfold header_of.
  rewrite !filter_app, filter_vessel_attribute_lines.
  rewrite (filter_cons_False _ (system_line system)) by done.
  rewrite (filter_cons_False _ banner) by done.
  rewrite (filter_cons_False _ banner) by done.
  rewrite (filter_cons_False _ title_line) by done.
  by rewrite !filter_nil, !app_nil_r.
Qed.

Lemma filter_project_header config system :
  filter is_project_line (header_of config system)
  = project_line <$> records "project" config.
Proof.
  unfold header_of.
  rewrite !filter_app, filter_project_attribute_lines.
  rewrite (filter_cons_False _ (system_line system)) by done.
  rewrite (filter_cons_False _ banner) by done.
  rewrite (filter_cons_False _ banner) by done.
  rewrite (filter_cons_False _ title_line) by done.
  by rewrite !filter_nil, !app_nil_r.
Qed.

(** *** The loop over the system records *)

Lemma record_value_system_bare line :
  split "," line = [line] → well_formed_record line →
  record_value "system" line = None ∧ line ≠ "system".
Proof.
  intros Hsplit Hwf. unfold record_value. rewrite Hsplit. split; [done|].
  intros ->. apply Hwf. set_solver.
Qed.

Lemma systems_loop_spec config_file content rest acc w :
  files w !! config_file = Some content →
  Forall well_formed_record (readlines content) →
  Forall well_formed_record rest →
  Forall (λ s, s +:+ ".hdr" ≠ config_file) (records "system" rest) →
  ∃ w', systems_loop config_file rest acc w
        = (Ok (acc ++ records "system" rest), w')
    ∧ files w' !! config_file = Some content
    ∧ (∀ s, s ∈ records "system" rest →
         files w' !! (s +:+ ".hdr")
         = Some (join (header_of (readlines content) s)))
    ∧ (∀ name, Forall (λ s, name ≠ s +:+ ".hdr") (records "system" rest) →
         files w' !! name = files w !! name).
Proof.
  intros Hfile Hwf Hrest. revert acc w Hfile.
  induction Hrest as [|line rest Hline _ IH]; intros acc w Hfile Halias.
  { exists w. change (records "system" []) with (@nil string).
    rewrite app_nil_r. split; [done|]. split; [done|]. split; [|done].
    intros s Hs. by apply not_elem_of_nil in Hs. }
  cbn [systems_loop]. cbv zeta.
  destruct (split "," line) as [|t [|v fs]] eqn:Hsplit.
  - destruct (split_cons "," line) as (? & ? & ?). congruence.
  - pose proof Hsplit as Hbare. apply split_singleton in Hbare as ->.
    destruct (record_value_system_bare line Hsplit Hline) as [Hnone Hne].
    unfold records in *. cbn [omap list_omap] in *. rewrite Hnone in *.
    destruct (decide (line ≠ "")); [|by apply IH].
    unfold index. cbn [lookup list_lookup]. run_io.
    rewrite decide_False by done. by apply IH.
  - assert (record_value "system" line
            = if decide (t = "system") then Some v else None) as Hval
      by (unfold record_value; by rewrite Hsplit).
    unfold records in *. cbn [omap list_omap] in *. rewrite Hval in *.
    destruct (decide (line ≠ "")) as [_|Hempty].
    2:{ apply dec_stable in Hempty as ->. cbn in Hsplit. congruence. }
    unfold index. cbn [lookup list_lookup]. run_io.
    destruct (decide (t = "system")) as [->|]; [|by apply IH].
    apply Forall_cons in Halias as [Hv Halias].
    rewrite (create_header_run w config_file v content) by done.
    destruct (IH (acc ++ [v])
                (written w (v +:+ ".hdr") (header_of (readlines content) v)))
      as (w' & Hrun & Hcfg & Hhdr & Hframe).
    { cbn. by rewrite lookup_insert_ne. }
    { done. }
    exists w'. rewrite Hrun, <- app_assoc. repeat split; [done| |].
    + intros s [->|Hs]%elem_of_cons; [|by apply Hhdr].
      destruct (decide (v ∈ omap (record_value "system") rest)) as [Hin|Hout].
      { by apply Hhdr. }
      rewrite Hframe; [cbn; apply lookup_insert_eq|].
      apply Forall_forall. intros s Hs Heq.
      apply string_app_inj_r in Heq as ->. done.
    + intros name [Hname Hnames]%Forall_cons.
      rewrite Hframe by done. cbn. by rewrite lookup_insert_ne.
Qed.

(** C6 (as the code has it): for a configuration file that is readable,
    has no line that is a bare tag and is not itself the header file of
    one of its systems, [get_dgps_systems] completes and the header file
    of every [system] record holds exactly the banner, the title, one
    "* Vessel: " line for each [vessel] record and one "* Project: " line
    for each [project] record of the whole configuration file, in file
    order, the system line and the banner: a record counts whether it
    stands before or after the [system] record, since the header is
    built by reading the file again from the start. *)
Theorem get_dgps_systems_headers w config_file content :
  files w !! config_file = Some content →
  Forall well_formed_record (readlines content) →
  Forall (λ s, s +:+ ".hdr" ≠ config_file)
    (records "system" (readlines content)) →
  ∃ w', get_dgps_systems config_file w
        = (Ok (records "system" (readlines content)), w')
    ∧ ∀ system, system ∈ records "system" (readlines content) →
        files w' !! (system +:+ ".hdr")
        = Some (join ([banner; title_line]
                      ++ (readlines content ≫= attribute_line)
                      ++ [system_line system; banner]))
        ∧ filter is_vessel_line
            ([banner; title_line]
             ++ (readlines content ≫= attribute_line)
             ++ [system_line system; banner])
          = vessel_line <$> records "vessel" (readlines content)
        ∧ filter is_project_line
            ([banner; title_line]
             ++ (readlines content ≫= attribute_line)
             ++ [system_line system; banner])
          = project_line <$> records "project" (readlines content).
Proof.
  intros Hfile Hwf Halias.
  destruct (systems_loop_spec config_file content (readlines content) [] w)
    as (w' & Hrun & _ & Hhdr & _); [done..|].
  exists w'. split.
  - unfold get_dgps_systems, read_file. run_io. by rewrite Hfile.
  - intros system Hsys.
    assert ([banner; title_line] ++ (readlines content ≫= attribute_line)
            ++ [system_line system; banner]
            = header_of (readlines content) system) as ->.
    { unfold header_of, attribute_lines. by rewrite <- !app_assoc. }
    split; [by apply Hhdr|]. split.
    + apply filter_vessel_header.
    + apply filter_project_header.
Qed.

Lemma get_dgps_systems_headers_witness :
  ∃ w', get_dgps_systems "zdgps_report.config" sample_config
        = (Ok ["V1G1"; "V2G2"], w')
    ∧ ∀ system, system ∈ ["V1G1"; "V2G2"] →
        files w' !! (system +:+ ".hdr")
        = Some (join [banner; title_line; vessel_line "Ramform";
                      project_line "P1"; system_line system; banner])
        ∧ filter is_vessel_line
            [banner; title_line; vessel_line "Ramform";
             project_line "P1"; system_line system; banner]
          = [vessel_line "Ramform"]
        ∧ filter is_project_line
            [banner; title_line; vessel_line "Ramform";
             project_line "P1"; system_line system; banner]
          = [project_line "P1"].
Proof.
  apply (get_dgps_systems_headers sample_config "zdgps_report.config"
           (text ["system,V1G1,"; "vessel,Ramform,"; ""; "project,P1,";
                  "system,V2G2,"])).
  - reflexivity.
  - apply (bool_decide_unpack _). vm_compute. exact I.
  - apply (bool_decide_unpack _). vm_compute. exact I.
Defined.

(** C6 as stated fails: a configuration file named [V1G1.hdr] is
    overwritten by the header of its first system, and the second system
    reads that header back as its configuration.  The file has the
    [vessel] record "Ramform" and the [system] record "V2G2", the run
    completes, and the header written for "V2G2" has no "* Vessel: "
    line. *)
Lemma get_dgps_systems_headers_counterexample :
  let content := text ["vessel,Ramform,"; "system,V1G1,"; "system,V2G2,"] in
  let w' := snd (get_dgps_systems "V1G1.hdr" overwritten_config) in
  files overwritten_config !! "V1G1.hdr" = Some content
  ∧ records "vessel" (readlines content) = ["Ramform"]
  ∧ records "system" (readlines content) = ["V1G1"; "V2G2"]
  ∧ fst (get_dgps_systems "V1G1.hdr" overwritten_config)
    = Ok ["V1G1"; "V2G2"]
  ∧ files w' !! "V2G2.hdr"
    = Some (join [banner; title_line; system_line "V2G2"; banner])
  ∧ filter is_vessel_line
      (readlines (join [banner; title_line; system_line "V2G2"; banner]))
    = [].
Proof. intros content w'. repeat split; vm_compute; reflexivity. Qed.

(** A bare tag raises [IndexError] before any header is written. *)
Example get_dgps_systems_bare_tag :
  get_dgps_systems "zdgps_report.config" bare_tag_config
  = (Raise IndexError, bare_tag_config).
Proof. reflexivity. Qed.

End headers.


(** ** Report merging: the data, the layout and the last rows *)

Section merging_more.

Implicit Types (w : world) (st : merge_state) (row line : string).
Implicit Types (rows names fields : list string).

Lemma is_data_row_newline row : is_data_row (newline row) ↔ is_data_row row.
Proof.
  unfold is_data_row, newline.
  by rewrite is_header_row_newline, is_source_row_newline.
Qed.

Lemma all_data_data_rows w names : Forall is_data_row (all_data w names).
Proof.
  apply Forall_forall. intros l Hl. unfold all_data in Hl.
  apply list_elem_of_bind in Hl as (name & Hl & _).
  apply list_elem_of_fmap in Hl as (row & -> & Hrow).
  apply list_elem_of_filter in Hrow as [Hrow _].
  by apply is_data_row_newline.
Qed.

(** The header accumulator only ever holds header rows and source lines. *)
Lemma classify_rows_header_kind st rows st' :
  classify_rows st rows = Ok st' →
  is_source_line (source_line st) →
  Forall is_header_line (header_lines st) →
  Forall is_header_line (header_lines st').
Proof.
  revert st. induction rows as [|row rows IH]; intros st Hrun Hsl Hhdr.
  { by injection Hrun as <-. }
  cbn [classify_rows] in Hrun.
  destruct (row_kind row) as [Hk|[Hk|Hk]].
  - rewrite classify_row_header in Hrun by done.
    apply IH in Hrun; [done..|]. cbn. apply Forall_app. split; [done|].
    apply Forall_singleton. left. by apply is_header_row_newline.
  - rewrite classify_row_source in Hrun by done.
    destruct (index (split "," row) 1) as [f|]; [|done].
    apply IH in Hrun; [done|by apply is_source_line_app|].
    cbn. apply Forall_app. split; [done|].
    apply Forall_singleton. right. by do 2 apply is_source_line_app.
  - rewrite classify_row_data in Hrun by done.
    by apply IH in Hrun.
Qed.

Lemma fold_files_header_kind w st names st' :
  fold_files w st names = Ok st' →
  is_source_line (source_line st) →
  Forall is_header_line (header_lines st) →
  Forall is_header_line (header_lines st').
Proof.
  revert st. induction names as [|name names IH]; intros st Hrun Hsl Hhdr.
  { by injection Hrun as <-. }
  cbn [fold_files] in Hrun.
  destruct (classify_rows (next_file st) (classified_rows w name))
    as [st1|] eqn:Hfile; [|done].
  cbn [mbind result_bind] in Hrun. apply (IH st1); [done| |].
  - destruct (decide (well_formed_rows (classified_rows w name))) as [Hwf|Hwf].
    + destruct (classify_rows_spec (next_file st) _ Hwf Hsl)
        as (st2 & Hrun2 & Hs & _).
      rewrite Hfile in Hrun2. injection Hrun2 as <-. rewrite Hs.
      by apply is_source_line_extend.
    + exfalso. apply Hwf. apply Forall_forall. intros row Hrow Hs.
      destruct (split "," row !! 1) eqn:Hf; [by eexists|].
      apply lookup_ge_None in Hf.
      rewrite (classify_rows_Raise _ _ row) in Hfile; [done..|lia].
  - eapply classify_rows_header_kind; [exact Hfile|exact Hsl|].
    by apply Forall_nil.
Qed.

(** X2: The data of every listed file reaches the final report, file after
    file in listing order and row after row within a file. *)
Theorem final_data_from_all_files w system year julian_day :
  Forall (λ name, well_formed_rows (classified_rows w name))
    (listed_files w system julian_day) →
  ∃ st, merge_reports system julian_day w = (Ok st, w)
    ∧ data_lines st
      = listed_files w system julian_day ≫= (λ name,
          newline <$> filter is_data_row (classified_rows w name))
    ∧ create_final_report system year julian_day w
      = (Ok tt,
         written w (final_report_name system year julian_day)
           (header_lines st ++ data_lines st)).
Proof.
  intros Hwf.
  destruct (fold_files_spec w initial_state _ Hwf) as (st & Hrun & _ & Hd);
    [done|].
  exists st. rewrite merge_reports_run, create_final_report_run, Hrun.
  by rewrite Hd.
Qed.

Lemma final_data_from_all_files_witness :
  ∃ st, merge_reports "V1G1" "006" raw_two_headers = (Ok st, raw_two_headers)
    ∧ data_lines st = [newline "1.0"; newline "2.0"]
    ∧ create_final_report "V1G1" "2022" "006" raw_two_headers
      = (Ok tt,
         written raw_two_headers (final_report_name "V1G1" "2022" "006")
           (header_lines st ++ data_lines st)).
Proof.
  apply (final_data_from_all_files raw_two_headers "V1G1" "2022" "006").
  apply (bool_decide_unpack _). vm_compute. exact I.
Defined.

(** X3: In the final report every header row and source line stands before
    every data row: what is written is the header accumulator followed by
    the data accumulator, the header accumulator holds nothing else than
    rows that begin with [*], [D] or a double quote and source lines, and
    the data accumulator no such row and no row that begins with [S]. *)
Theorem final_report_layout w system year julian_day :
  Forall (λ name, well_formed_rows (classified_rows w name))
    (listed_files w system julian_day) →
  ∃ st, merge_reports system julian_day w = (Ok st, w)
    ∧ create_final_report system year julian_day w
      = (Ok tt,
         written w (final_report_name system year julian_day)
           (header_lines st ++ data_lines st))
    ∧ Forall is_header_line (header_lines st)
    ∧ Forall is_data_row (data_lines st).
Proof.
  intros Hwf.
  destruct (fold_files_spec w initial_state _ Hwf) as (st & Hrun & _ & Hd);
    [done|].
  exists st. rewrite merge_reports_run, create_final_report_run, Hrun.
  split; [done|]. split; [done|]. split.
  - eapply fold_files_header_kind; [exact Hrun|done|]. by apply Forall_nil.
  - rewrite Hd. apply all_data_data_rows.
Qed.

Lemma final_report_layout_witness :
  ∃ st, merge_reports "V1G1" "006" raw_two_headers = (Ok st, raw_two_headers)
    ∧ create_final_report "V1G1" "2022" "006" raw_two_headers
      = (Ok tt,
         written raw_two_headers (final_report_name "V1G1" "2022" "006")
           (header_lines st ++ data_lines st))
    ∧ Forall is_header_line (header_lines st)
    ∧ Forall is_data_row (data_lines st).
Proof.
  apply (final_report_layout raw_two_headers "V1G1" "2022" "006").
  apply (bool_decide_unpack _). vm_compute. exact I.
Defined.






(** X5: A last file of at most one line leaves the final report without any
    header: its only line is dropped, and the header rows of the files
    before it were discarded when it started. *)
Theorem short_last_file_clears_header w system year julian_day init last :
  listed_files w system julian_day = init ++ [last] →
  length (splitlines (popen w (cat_command last))) ≤ 1 →
  Forall (λ name, well_formed_rows (classified_rows w name)) init →
  ∃ st, merge_reports system julian_day w = (Ok st, w)
    ∧ header_lines st = []
    ∧ data_lines st
      = init ≫= (λ name,
          newline <$> filter is_data_row (classified_rows w name))
    ∧ create_final_report system year julian_day w
      = (Ok tt,
         written w (final_report_name system year julian_day) (data_lines st)).
Proof.
  intros Hls Hshort Hwf.
  assert (classified_rows w last = []) as Hrows.
  { unfold classified_rows, drop_last.
    destruct (splitlines _) as [|? [|? ?]]; [done..|]. cbn in Hshort. lia. }
  destruct (fold_files_spec w initial_state init Hwf)
    as (st1 & Hrun1 & _ & Hd1); [done|].
  exists (next_file st1).
  rewrite merge_reports_run, create_final_report_run, Hls, fold_files_snoc.
  rewrite Hrun1. cbn [mbind result_bind]. rewrite Hrows.
  cbn [classify_rows next_file header_lines data_lines app].
  by rewrite Hd1.
Qed.

Lemma short_last_file_clears_header_witness :
  ∃ st, merge_reports "V1G1" "006" raw_short_last = (Ok st, raw_short_last)
    ∧ header_lines st = []
    ∧ data_lines st = [newline "1.0"]
    ∧ create_final_report "V1G1" "2022" "006" raw_short_last
      = (Ok tt,
         written raw_short_last (final_report_name "V1G1" "2022" "006")
           (data_lines st)).
Proof.
  apply (short_last_file_clears_header raw_short_last "V1G1" "2022" "006"
           [raw_name] raw_name').
  - reflexivity.
  - vm_compute. lia.
  - apply (bool_decide_unpack _). vm_compute. exact I.
Defined.

Lemma fold_files_ext_rows w1 w2 st names :
  (∀ name, name ∈ names → classified_rows w2 name = classified_rows w1 name) →
  fold_files w2 st names = fold_files w1 st names.
Proof.
  revert st. induction names as [|name names IH]; intros st Hrows; [done|].
  cbn [fold_files]. rewrite (Hrows name) by apply list_elem_of_here.
  destruct (classify_rows _ _); cbn [mbind result_bind]; [|done].
  apply IH. intros n Hn. by apply Hrows, list_elem_of_further.
Qed.

(** X6: The last row of a raw report is never looked at: two environments
    with the same listing whose listed files agree on all rows but the
    last give the same outcome, and the same final report when one is
    written. *)
Theorem create_final_report_ignores_last_rows w1 w2 system year julian_day :
  listed_files w2 system julian_day = listed_files w1 system julian_day →
  (∀ name, name ∈ listed_files w1 system julian_day →
     classified_rows w2 name = classified_rows w1 name) →
  (create_final_report system year julian_day w1 = (Raise IndexError, w1)
   ∧ create_final_report system year julian_day w2 = (Raise IndexError, w2))
  ∨ ∃ lines,
      create_final_report system year julian_day w1
      = (Ok tt, written w1 (final_report_name system year julian_day) lines)
      ∧ create_final_report system year julian_day w2
        = (Ok tt, written w2 (final_report_name system year julian_day) lines).
Proof.
  intros Hls Hrows. rewrite !create_final_report_run, Hls.
  rewrite (fold_files_ext_rows w1 w2) by done.
  destruct (fold_files w1 initial_state _) as [st|e] eqn:Hrun.
  - right. by eexists.
  - left. by apply fold_files_Raise_only in Hrun as ->.
Qed.

Lemma create_final_report_ignores_last_rows_witness :
  (create_final_report "V1G1" "2022" "006" raw_single
   = (Raise IndexError, raw_single)
   ∧ create_final_report "V1G1" "2022" "006" raw_other_last
     = (Raise IndexError, raw_other_last))
  ∨ ∃ lines,
      create_final_report "V1G1" "2022" "006" raw_single
      = (Ok tt,
         written raw_single (final_report_name "V1G1" "2022" "006") lines)
      ∧ create_final_report "V1G1" "2022" "006" raw_other_last
        = (Ok tt,
           written raw_other_last (final_report_name "V1G1" "2022" "006")
             lines).
Proof.
  apply (create_final_report_ignores_last_rows raw_single raw_other_last
           "V1G1" "2022" "006").
  - reflexivity.
  - intros name Hname.
    change (listed_files raw_single "V1G1" "006") with [raw_name] in Hname.
    apply list_elem_of_singleton in Hname as ->. reflexivity.
Defined.

End merging_more.

(** ** Segment selection: the selected lines *)

Section selection_more.

Implicit Types (w : world) (julian_day line : string).

(** X1: When every catalogue line has at least three fields, the result is the
    catalogue restricted to the lines whose third field is the day, in
    catalogue order; it is empty, and no exception is raised, when no line
    matches. *)
Theorem get_prhrep_list_selects w julian_day :
  Forall (λ line, 3 ≤ length (split "_" line))
    (splitlines (popen w list_command)) →
  get_prhrep_list julian_day w
  = (Ok (filter (λ line, split "_" line !! 2 = Some julian_day)
           (splitlines (popen w list_command))), w).
Proof.
  intros Hall. apply get_prhrep_list_filter.
  eapply Forall_impl; [exact Hall|]. intros line Hlen.
  by apply lookup_lt_is_Some_2.
Qed.

Lemma get_prhrep_list_selects_witness :
  get_prhrep_list "007" catalogue_24hr
  = (Ok ["24hr_2022_007_000000"], catalogue_24hr).
Proof.
  apply (get_prhrep_list_selects catalogue_24hr "007").
  apply (bool_decide_unpack _). vm_compute. exact I.
Defined.

End selection_more.

(** ** Clock: [get_julian_day], [get_previous_julian_day], [get_year] *)

Section clock.

Implicit Types (w : world) (s d : string).

Lemma rstrip_no_space_nl d : no_space d = true → rstrip (d +:+ nl) = d.
Proof.
  induction d as [|c r IH]; [done|]. cbn [no_space].
  intros [Hc Hr]%andb_prop. apply negb_true_iff in Hc.
  rewrite string_app_cons. cbn [rstrip]. rewrite IH by done.
  destruct r; [by rewrite Hc | done].
Qed.

Lemma strip_no_space_nl d : no_space d = true → strip (d +:+ nl) = d.
Proof.
  intros Hd. unfold strip. destruct d as [|c r]; [done|].
  rewrite string_app_cons. cbn [lstrip]. cbn [no_space] in Hd.
  apply andb_prop in Hd as [Hc Hr]. apply negb_true_iff in Hc as Hc'.
  rewrite Hc'. rewrite <- string_app_cons. apply rstrip_no_space_nl.
  cbn [no_space]. by rewrite Hc, Hr.
Qed.

Lemma first_char_lstrip s c :
  first_char (lstrip s) = Some c → isspace c = false.
Proof.
  induction s as [|b r IH]; [done|]. cbn [lstrip].
  destruct (isspace b) eqn:Hb; [done|]. by intros [= <-].
Qed.

Lemma first_char_rstrip s c :
  first_char (rstrip s) = Some c → first_char s = Some c.
Proof.
  destruct s as [|b r]; [done|]. cbn [rstrip].
  destruct (rstrip r); [|done]. by destruct (isspace b).
Qed.

Lemma last_char_rstrip s c :
  last_char (rstrip s) = Some c → isspace c = false.
Proof.
  induction s as [|b r IH]; [done|]. cbn [rstrip].
  destruct (rstrip r) as [|c' r'].
  - destruct (isspace b) eqn:Hb; [done|]. by intros [= <-].
  - apply IH.
Qed.

Lemma stripped_strip s : stripped (strip s).
Proof.
  unfold stripped, strip. split; intros c Hc.
  - by apply first_char_rstrip, first_char_lstrip in Hc.
  - by apply last_char_rstrip in Hc.
Qed.

(** X15: The [date] command ends what it prints with a newline; the clock
    functions return the value without it, so that it compares equal to a
    field of a catalogue line. *)
Theorem clock_drops_newline w today day year :
  no_space today = true → no_space day = true → no_space year = true →
  popen w "date +%j" = today +:+ nl →
  popen w "date --date='-1 day' +%j" = day +:+ nl →
  popen w "date --date='-1 day' +%Y" = year +:+ nl →
  get_julian_day w = (Ok today, w)
  ∧ get_previous_julian_day w = (Ok day, w)
  ∧ get_year w = (Ok year, w).
Proof.
  intros Ht Hd Hy Hpt Hpd Hpy.
  unfold get_julian_day, get_previous_julian_day, get_year. run_io.
  rewrite Hpt, Hpd, Hpy. by rewrite !strip_no_space_nl.
Qed.

Lemma clock_drops_newline_witness :
  get_julian_day clock = (Ok "007", clock)
  ∧ get_previous_julian_day clock = (Ok "006", clock)
  ∧ get_year clock = (Ok "2022", clock).
Proof.
  apply (clock_drops_newline clock "007" "006" "2022"); reflexivity.
Defined.

(** X16: Whatever the [date] command prints, the clock functions raise
    nothing, leave the environment as it was and return a string with no
    whitespace at either end. *)
Theorem clock_values_stripped w :
  ∃ today day year,
    get_julian_day w = (Ok today, w)
    ∧ get_previous_julian_day w = (Ok day, w)
    ∧ get_year w = (Ok year, w)
    ∧ stripped today ∧ stripped day ∧ stripped year.
Proof.
  do 3 eexists. repeat split; try reflexivity; apply stripped_strip.
Qed.

End clock.

(** ** Files: [read_file] and [write_file] *)

Section file_io.

Implicit Types (w : world) (s name : string) (lines : list string).

Lemma readlines_nil s : readlines s = [] → s = "".
Proof.
  destruct s as [|c r]; [done|]. cbn [readlines].
  destruct (decide (c = LF)); [done|]. by destruct (readlines r).
Qed.

Lemma join_readlines s : join (readlines s) = s.
Proof.
  induction s as [|c r IH]; [done|]. cbn [readlines].
  destruct (decide (c = LF)) as [->|Hc].
  - cbn [join foldr]. fold (join (readlines r)). by rewrite IH.
  - destruct (readlines r) as [|l ls] eqn:Hr.
    + apply readlines_nil in Hr as ->. done.
    + cbn [join foldr] in *. by rewrite string_app_cons, IH.
Qed.

Lemma readlines_line body rest :
  contains LF body = false →
  readlines ((body +:+ nl) +:+ rest) = (body +:+ nl) :: readlines rest.
Proof.
  induction body as [|c b IH]; intros Hb.
  - change (("" +:+ nl) +:+ rest) with (String LF rest). cbn [readlines].
    by rewrite decide_True.
  - cbn [contains] in Hb. apply orb_false_elim in Hb as [Hc Hb].
    apply bool_decide_eq_false in Hc.
    rewrite !string_app_cons. cbn [readlines].
    rewrite decide_False by done. by rewrite IH.
Qed.

Lemma readlines_join lines :
  Forall is_line lines → readlines (join lines) = lines.
Proof.
  induction 1 as [|l lines (body & -> & Hbody) _ IH]; [done|].
  cbn [join foldr]. fold (join lines). by rewrite readlines_line, IH.
Qed.

(** X13: Writing back the lines read from a file leaves the file, and the whole
    environment, as it was. *)
Theorem read_then_write_unchanged w name content :
  files w !! name = Some content →
  (lines ← read_file name; write_file name lines) w = (Ok tt, w).
Proof.
  intros Hfile. unfold read_file, write_file. run_io. rewrite Hfile.
  rewrite join_readlines, insert_id by done. by destruct w.
Qed.

Lemma read_then_write_unchanged_witness :
  (lines ← read_file "zdgps_report.config";
   write_file "zdgps_report.config" lines) sample_config
  = (Ok tt, sample_config).
Proof.
  apply (read_then_write_unchanged sample_config "zdgps_report.config"
           (text ["system,V1G1,"; "vessel,Ramform,"; ""; "project,P1,";
                  "system,V2G2,"])).
  reflexivity.
Defined.

(** X14: Reading a file that was written from lines, each one ended by its only
    newline, returns those lines. *)
Theorem write_then_read_lines w name lines :
  Forall is_line lines →
  (write_file name lines;; read_file name) w
  = (Ok lines, written w name lines).
Proof.
  intros Hlines. unfold read_file, write_file, written. run_io. cbn [files].
  by rewrite lookup_insert_eq, readlines_join.
Qed.

Lemma write_then_read_lines_witness :
  (write_file "V1G1.hdr" [banner; title_line];; read_file "V1G1.hdr") raw_none
  = (Ok [banner; title_line], written raw_none "V1G1.hdr" [banner; title_line]).
Proof.
  apply (write_then_read_lines raw_none "V1G1.hdr" [banner; title_line]).
  repeat constructor.
  - by exists "*******************************************".
  - by exists "* zDGPS Report for PGS office".
Defined.

End file_io.

(** ** Header construction: content, frame and repeated runs *)

Section headers_more.

Implicit Types (w : world) (line tag system name : string).
Implicit Types (config : list string).

Lemma contains_app (c : ascii) (s t : string) :
  contains c (s +:+ t) = contains c s || contains c t.
Proof.
  induction s as [|b r IH]; [done|]. rewrite string_app_cons. cbn [contains].
  by rewrite IH, orb_assoc.
Qed.

Lemma readlines_last_char (s : string) :
  last_char s = Some LF →
  Forall (λ l, last_char l = Some LF) (readlines s).
Proof.
  induction s as [|c r IH]; [done|]. intros Hlast. cbn [readlines].
  destruct (decide (c = LF)) as [->|Hc].
  - constructor; [done|]. destruct r as [|c' r']; [constructor|].
    by apply IH.
  - destruct r as [|c' r']; [cbn in Hlast; congruence|].
    specialize (IH Hlast).
    destruct (readlines (String c' r')) as [|l ls] eqn:Hr.
    { by apply readlines_nil in Hr. }
    apply Forall_cons in IH as [Hl Hls]. constructor; [|done].
    by destruct l.
Qed.

Lemma well_formed_record_newline line :
  last_char line = Some LF → well_formed_record line.
Proof.
  intros Hlast Hin. unfold well_formed_record in *.
  rewrite !elem_of_cons in Hin.
  destruct Hin as [->|[->|[->|Hin]]]; [done..|].
  by apply not_elem_of_nil in Hin.
Qed.

Lemma readlines_well_formed (content : string) :
  content = "" ∨ last_char content = Some LF →
  Forall well_formed_record (readlines content).
Proof.
  intros [->|Hlast]; [constructor|].
  eapply Forall_impl; [by apply readlines_last_char|].
  apply well_formed_record_newline.
Qed.

Lemma create_header_popen config_file system w :
  popen (snd (create_header config_file system w)) = popen w.
Proof.
  unfold create_header, read_file, write_file. run_io.
  destruct (files w !! config_file); [|done].
  by destruct (header_loop _ _).
Qed.

Lemma systems_loop_popen config_file rest acc w :
  popen (snd (systems_loop config_file rest acc w)) = popen w.
Proof.
  revert acc w. induction rest as [|line rest IH]; intros acc w; [done|].
  cbn [systems_loop]. cbv zeta.
  destruct (decide (line ≠ "")); [|apply IH].
  cbv [mbind io_bind lift].
  destruct (index (split "," line) 0) as [p0|]; [|done].
  destruct (decide (p0 = "system")); [|apply IH].
  destruct (index (split "," line) 1) as [p1|]; [|done].
  pose proof (create_header_popen config_file p1 w) as Hpopen.
  destruct (create_header config_file p1 w) as [[[]|err] w1]; [|done].
  cbn [snd] in Hpopen. by rewrite IH.
Qed.

(** X8: The header of a system is the banner, the title, one line for each
    [vessel] or [project] record in the order of the configuration file,
    the system line and the banner again; nothing but the header file is
    written. *)
Theorem create_header_writes w config_file system content :
  files w !! config_file = Some content →
  Forall well_formed_record (readlines content) →
  create_header config_file system w
  = (Ok tt,
     written w (system +:+ ".hdr")
       ([banner; title_line]
        ++ (readlines content ≫= attribute_line)
        ++ [system_line system; banner])).
Proof.
  intros Hfile Hwf. rewrite (create_header_run w config_file system content)
    by done.
  unfold header_of, attribute_lines. by rewrite <- !app_assoc.
Qed.

Lemma create_header_writes_witness :
  create_header "zdgps_report.config" "V1G1" sample_config
  = (Ok tt,
     written sample_config "V1G1.hdr"
       [banner; title_line; vessel_line "Ramform"; project_line "P1";
        system_line "V1G1"; banner]).
Proof.
  apply (create_header_writes sample_config "zdgps_report.config" "V1G1"
           (text ["system,V1G1,"; "vessel,Ramform,"; ""; "project,P1,";
                  "system,V2G2,"])).
  - reflexivity.
  - apply (bool_decide_unpack _). vm_compute. exact I.
Defined.

(** X9: A configuration file that is empty or ends with a newline never makes
    [get_dgps_systems] raise [IndexError]: a line without a comma is then
    ignored, since its first field carries the newline and equals no tag. *)
Theorem get_dgps_systems_newline_terminated w config_file content :
  files w !! config_file = Some content →
  content = "" ∨ last_char content = Some LF →
  Forall (λ s, s +:+ ".hdr" ≠ config_file)
    (records "system" (readlines content)) →
  ∃ w', get_dgps_systems config_file w
        = (Ok (records "system" (readlines content)), w').
Proof.
  intros Hfile Hend Halias.
  pose proof (readlines_well_formed content Hend) as Hwf.
  destruct (systems_loop_spec config_file content (readlines content) [] w)
    as (w' & Hrun & _); [done..|].
  exists w'. unfold get_dgps_systems, read_file. run_io. by rewrite Hfile.
Qed.

Lemma get_dgps_systems_newline_terminated_witness :
  ∃ w', get_dgps_systems "zdgps_report.config"
          (World (scripted [])
             {[ "zdgps_report.config" := text ["vessel"; "system,V1G1,"] ]})
        = (Ok ["V1G1"], w').
Proof.
  apply (get_dgps_systems_newline_terminated
           (World (scripted [])
              {[ "zdgps_report.config" := text ["vessel"; "system,V1G1,"] ]})
           "zdgps_report.config" (text ["vessel"; "system,V1G1,"])).
  - reflexivity.
  - right. reflexivity.
  - apply (bool_decide_unpack _). vm_compute. exact I.
Defined.

Lemma create_header_frame config_file system w r w1 name :
  create_header config_file system w = (r, w1) →
  name ≠ system +:+ ".hdr" →
  files w1 !! name = files w !! name.
Proof.
  unfold create_header, read_file, write_file. run_io.
  destruct (files w !! config_file); [|by intros [= _ <-]].
  destruct (header_loop _ _); [|by intros [= _ <-]].
  intros [= _ <-] Hne. cbn. by rewrite lookup_insert_ne.
Qed.

Lemma systems_loop_frame config_file rest acc w systems w' :
  systems_loop config_file rest acc w = (Ok systems, w') →
  ∃ new, systems = acc ++ new
    ∧ ∀ name, Forall (λ s, name ≠ s +:+ ".hdr") new →
        files w' !! name = files w !! name.
Proof.
  revert acc w. induction rest as [|line rest IH]; intros acc w.
  { intros [= <- <-]. exists []. by rewrite app_nil_r. }
  cbn [systems_loop]. cbv zeta.
  destruct (decide (line ≠ "")); [|apply IH].
  cbv [mbind io_bind lift].
  destruct (index (split "," line) 0) as [p0|]; [|done].
  destruct (decide (p0 = "system")); [|apply IH].
  destruct (index (split "," line) 1) as [p1|]; [|done].
  destruct (create_header config_file p1 w) as [[[]|err] w1] eqn:Hheader;
    [|done].
  intros Hrun. apply IH in Hrun as (new & -> & Hframe).
  exists (p1 :: new). split; [by rewrite <- app_assoc|].
  intros name [Hname Hnew]%Forall_cons. rewrite Hframe by done.
  by apply (create_header_frame config_file p1 w (Ok tt) w1).
Qed.

(** X10: Whenever [get_dgps_systems] returns, the only files whose content
    it has changed are header files of the systems it returns: every
    file with another name, the configuration file among them, holds
    what it held before. *)
Theorem get_dgps_systems_frame w config_file systems w' :
  get_dgps_systems config_file w = (Ok systems, w') →
  ∀ name, Forall (λ s, name ≠ s +:+ ".hdr") systems →
    files w' !! name = files w !! name.
Proof.
  unfold get_dgps_systems, read_file. cbv [mbind io_bind].
  destruct (files w !! config_file); [|done].
  intros Hrun. apply systems_loop_frame in Hrun as (new & -> & Hframe).
  exact Hframe.
Qed.

Lemma get_dgps_systems_frame_witness :
  let w' := snd (get_dgps_systems "zdgps_report.config" sample_config) in
  get_dgps_systems "zdgps_report.config" sample_config
  = (Ok ["V1G1"; "V2G2"], w')
  ∧ ∀ name, Forall (λ s, name ≠ s +:+ ".hdr") ["V1G1"; "V2G2"] →
      files w' !! name = files sample_config !! name.
Proof.
  intros w'. split; [vm_compute; reflexivity|].
  apply (get_dgps_systems_frame sample_config "zdgps_report.config"
           ["V1G1"; "V2G2"] w').
  vm_compute. reflexivity.
Defined.

Lemma split_app_sep (sep : ascii) (t v : string) :
  contains sep t = false →
  split sep (t +:+ String sep v) = t :: split sep v.
Proof.
  induction t as [|c t IH]; intros Ht.
  - change ("" +:+ String sep v) with (String sep v). cbn [split].
    by rewrite decide_True.
  - cbn [contains] in Ht. apply orb_false_elim in Ht as [Hc Ht].
    apply bool_decide_eq_false in Hc.
    rewrite string_app_cons. cbn [split]. rewrite decide_False by done.
    by rewrite IH.
Qed.

(** X11: Running [get_dgps_systems] again changes nothing: it returns the same
    systems and writes each header file with the content it already has. *)
Theorem get_dgps_systems_idempotent w config_file content :
  files w !! config_file = Some content →
  Forall well_formed_record (readlines content) →
  Forall (λ s, s +:+ ".hdr" ≠ config_file)
    (records "system" (readlines content)) →
  ∃ systems w',
    get_dgps_systems config_file w = (Ok systems, w')
    ∧ get_dgps_systems config_file w' = (Ok systems, w').
Proof.
  intros Hfile Hwf Halias.
  destruct (systems_loop_spec config_file content (readlines content) [] w)
    as (w' & Hrun & Hcfg & Hhdr & _); [done..|].
  destruct (systems_loop_spec config_file content (readlines content) [] w')
    as (w'' & Hrun' & _ & Hhdr' & Hframe'); [done..|].
  exists (records "system" (readlines content)), w'.
  unfold get_dgps_systems, read_file. run_io. rewrite Hfile, Hcfg.
  split; [done|]. rewrite Hrun'. f_equal.
  assert (popen w'' = popen w') as Hpopen.
  { pose proof (systems_loop_popen config_file (readlines content) [] w')
      as Hp.
    by rewrite Hrun' in Hp. }
  assert (files w'' = files w') as Hfiles.
  { apply map_eq. intros name.
    destruct (decide (Exists (λ s, name = s +:+ ".hdr")
                        (records "system" (readlines content))))
      as [Hex|Hnex].
    - apply Exists_exists in Hex as (s & Hs & ->).
      by rewrite Hhdr', Hhdr.
    - apply Hframe'. apply Forall_forall. intros s Hs Heq.
      apply Hnex, Exists_exists. eauto. }
  destruct w'', w'. cbn in *. by subst.
Qed.

Lemma get_dgps_systems_idempotent_witness :
  ∃ systems w',
    get_dgps_systems "zdgps_report.config" sample_config = (Ok systems, w')
    ∧ get_dgps_systems "zdgps_report.config" w' = (Ok systems, w').
Proof.
  apply (get_dgps_systems_idempotent sample_config "zdgps_report.config"
           (text ["system,V1G1,"; "vessel,Ramform,"; ""; "project,P1,";
                  "system,V2G2,"])).
  - reflexivity.
  - apply (bool_decide_unpack _). vm_compute. exact I.
  - apply (bool_decide_unpack _). vm_compute. exact I.
Defined.

(** X12: A [system] record that ends its line gives the system a name that ends
    with the newline: the value is the rest of the line, and the header
    file carries that name. *)
Theorem get_dgps_systems_keeps_newline w config_file content name :
  files w !! config_file = Some content →
  Forall well_formed_record (readlines content) →
  Forall (λ s, s +:+ ".hdr" ≠ config_file)
    (records "system" (readlines content)) →
  ("system," +:+ name +:+ nl) ∈ readlines content →
  contains "," name = false →
  ∃ systems w',
    get_dgps_systems config_file w = (Ok systems, w')
    ∧ (name +:+ nl) ∈ systems
    ∧ is_Some (files w' !! ((name +:+ nl) +:+ ".hdr")).
Proof.
  intros Hfile Hwf Halias Hline Hname.
  destruct (systems_loop_spec config_file content (readlines content) [] w)
    as (w' & Hrun & _ & Hhdr & _); [done..|].
  assert ((name +:+ nl) ∈ records "system" (readlines content)) as Hin.
  { apply list_elem_of_omap. eexists. split; [exact Hline|].
    unfold record_value.
    change ("system," +:+ name +:+ nl)
      with ("system" +:+ String ","%char (name +:+ nl)).
    rewrite (split_app_sep "," "system" (name +:+ nl)) by done.
    rewrite split_no_sep; [by rewrite decide_True|].
    by rewrite contains_app, Hname. }
  exists (records "system" (readlines content)), w'.
  split; [|split; [done|]].
  - unfold get_dgps_systems, read_file. run_io. by rewrite Hfile.
  - rewrite Hhdr by done. by eexists.
Qed.

Lemma get_dgps_systems_keeps_newline_witness :
  let w := World (scripted [])
             {[ "zdgps_report.config" := text ["vessel,Ramform"; "system,V1G1"] ]}
  in
  ∃ systems w',
    get_dgps_systems "zdgps_report.config" w = (Ok systems, w')
    ∧ ("V1G1" +:+ nl) ∈ systems
    ∧ is_Some (files w' !! (("V1G1" +:+ nl) +:+ ".hdr")).
Proof.
  intros w.
  apply (get_dgps_systems_keeps_newline w "zdgps_report.config"
           (text ["vessel,Ramform"; "system,V1G1"]) "V1G1").
  - reflexivity.
  - apply (bool_decide_unpack _). vm_compute. exact I.
  - apply (bool_decide_unpack _). vm_compute. exact I.
  - apply list_elem_of_further, list_elem_of_here.
  - reflexivity.
Defined.

End headers_more.

(** ** Report merging: the final report as a text file *)

Section report_text.

Implicit Types (w : world) (st : merge_state) (row line s : string).
Implicit Types (rows names : list string).

(** No line of [s.splitlines()] holds a newline. *)
Lemma splitlines_no_LF_bounded (n : nat) (s : string) :
  String.length s ≤ n →
  Forall (λ l, contains LF l = false) (splitlines s).
Proof.
  revert s. induction n as [|n IH]; intros s Hlen.
  { destruct s; [constructor | cbn in Hlen; lia]. }
  destruct s as [|c r]; [constructor|]. cbn in Hlen. cbn [splitlines].
  destruct (decide (c = LF)).
  { constructor; [done|]. apply IH. lia. }
  destruct (decide (c = CR)).
  { destruct r as [|c' r']; [by repeat constructor|].
    cbn in Hlen. destruct (decide (c' = LF)).
    - constructor; [done|]. apply IH. lia.
    - constructor; [done|]. apply IH. cbn. lia. }
  assert (Forall (λ l, contains LF l = false) (splitlines r)) as Hr
    by (apply IH; lia).
  destruct (splitlines r) as [|l ls].
  - repeat constructor. cbn. by rewrite bool_decide_eq_false_2.
  - apply Forall_cons in Hr as [Hl Hls]. constructor; [|done].
    cbn. by rewrite bool_decide_eq_false_2.
Qed.

Lemma splitlines_no_LF s : Forall (λ l, contains LF l = false) (splitlines s).
Proof. by apply (splitlines_no_LF_bounded (String.length s)). Qed.

Lemma removelast_Forall {A} (P : A → Prop) (l : list A) :
  Forall P l → Forall P (removelast l).
Proof.
  induction 1 as [|x l Hx Hl IH]; [constructor|].
  cbn. destruct l; [constructor|]. by constructor.
Qed.

Lemma classified_rows_no_LF w name :
  Forall (λ l, contains LF l = false) (classified_rows w name).
Proof. apply removelast_Forall, splitlines_no_LF. Qed.

(** The fields of a string without newline have none. *)
Lemma split_no_LF (sep : ascii) s :
  contains LF s = false →
  Forall (λ f, contains LF f = false) (split sep s).
Proof.
  induction s as [|c r IH]; intros Hs; [by repeat constructor|].
  cbn [contains] in Hs. apply orb_false_elim in Hs as [Hc Hr].
  specialize (IH Hr). cbn [split]. destruct (decide (c = sep)).
  - by constructor.
  - destruct (split sep r) as [|f fs]; [repeat constructor; cbn; by rewrite Hc|].
    apply Forall_cons in IH as [Hf Hfs]. constructor; [|done].
    cbn. by rewrite Hc.
Qed.

Lemma is_line_newline s : contains LF s = false → is_line (s +:+ nl).
Proof. intros Hs. by exists s. Qed.

Lemma classify_row_lines_only st row st' :
  contains LF row = false → lines_only st →
  classify_row st row = Ok st' → lines_only st'.
Proof.
  intros Hrow (Hh & Hd & Hs) Hrun.
  destruct (row_kind row) as [Hk|[Hk|Hk]].
  - rewrite classify_row_header in Hrun by done. injection Hrun as <-.
    split; [|done]. apply Forall_app. split; [done|].
    by apply Forall_singleton, is_line_newline.
  - rewrite classify_row_source in Hrun by done.
    destruct (index (split "," row) 1) as [f|] eqn:Hf; [|done].
    injection Hrun as <-. apply index_Ok in Hf.
    assert (contains LF f = false) as Hfield.
    { pose proof (split_no_LF "," row Hrow) as Hall.
      rewrite Forall_forall in Hall. apply Hall.
      by apply list_elem_of_lookup_2 in Hf. }
    assert (contains LF (source_line st +:+ "," +:+ f) = false) as Hsl.
    { by rewrite !contains_app, Hs, Hfield. }
    split; [|done]. cbn. apply Forall_app. split; [done|].
    by apply Forall_singleton, is_line_newline.
  - rewrite classify_row_data in Hrun by done. injection Hrun as <-.
    split; [done|]. split; [|done]. cbn. apply Forall_app. split; [done|].
    by apply Forall_singleton, is_line_newline.
Qed.

Lemma classify_rows_lines_only st rows st' :
  Forall (λ l, contains LF l = false) rows → lines_only st →
  classify_rows st rows = Ok st' → lines_only st'.
Proof.
  intros Hrows. revert st.
  induction Hrows as [|row rows Hrow _ IH]; intros st Hst Hrun.
  { by injection Hrun as <-. }
  cbn [classify_rows] in Hrun.
  destruct (classify_row st row) as [st1|] eqn:Hrow1; [|done].
  apply (IH st1); [|done]. by apply (classify_row_lines_only st row).
Qed.

Lemma fold_files_lines_only w st names st' :
  lines_only st → fold_files w st names = Ok st' → lines_only st'.
Proof.
  revert st. induction names as [|name names IH]; intros st Hst Hrun.
  { by injection Hrun as <-. }
  cbn [fold_files] in Hrun.
  destruct (classify_rows (next_file st) (classified_rows w name))
    as [st1|] eqn:Hfile; [|done].
  apply (IH st1); [|done].
  eapply classify_rows_lines_only; [apply classified_rows_no_LF| |exact Hfile].
  destruct Hst as (_ & Hd & Hs). split; [constructor|done].
Qed.

(** X17: The final report holds one text line for each accumulated line,
    whatever line ends the raw reports use: read back line by line, it
    gives the header lines followed by the data lines. *)
Theorem final_report_reads_back w system year julian_day :
  Forall (λ name, well_formed_rows (classified_rows w name))
    (listed_files w system julian_day) →
  ∃ st, merge_reports system julian_day w = (Ok st, w)
    ∧ (create_final_report system year julian_day;;
       read_file (final_report_name system year julian_day)) w
      = (Ok (header_lines st ++ data_lines st),
         written w (final_report_name system year julian_day)
           (header_lines st ++ data_lines st)).
Proof.
  intros Hwf.
  destruct (fold_files_spec w initial_state _ Hwf) as (st & Hrun & _); [done|].
  exists st. rewrite merge_reports_run, Hrun. split; [done|].
  cbv [mbind io_bind]. rewrite create_final_report_run, Hrun.
  unfold read_file, written. cbn [files]. rewrite lookup_insert_eq.
  rewrite readlines_join; [done|].
  apply (fold_files_lines_only w initial_state _ st) in Hrun
    as (Hh & Hd & _); [by apply Forall_app|].
  by repeat split; [constructor..|].
Qed.

Lemma final_report_reads_back_witness :
  ∃ st, merge_reports "V1G1" "006" raw_single = (Ok st, raw_single)
    ∧ (create_final_report "V1G1" "2022" "006";;
       read_file (final_report_name "V1G1" "2022" "006")) raw_single
      = (Ok (header_lines st ++ data_lines st),
         written raw_single (final_report_name "V1G1" "2022" "006")
           (header_lines st ++ data_lines st)).
Proof.
  apply (final_report_reads_back raw_single "V1G1" "2022" "006").
  apply (bool_decide_unpack _). vm_compute. exact I.
Defined.

End report_text.
